(** * International Standard Atmosphere: layers and layered model

    A shallow embedding of [international_standard_atmosphere.py] and the
    properties of its two classes, [ISALayer] and [ISAModel].

    Number model.  The Python code computes on binary64 floats.  Here a
    float is idealised as a real number: [+], [-], [*] are the exact
    operations, [/] raises [ZeroDivisionError] on a zero divisor,
    [math.pow] raises [ValueError] on its domain errors, and overflow,
    NaN and rounding are not represented.  Every statement below is a
    statement about this exact-arithmetic reading of the code. *)

From Stdlib Require Import Reals Lra List Bool Sorted.
Import ListNotations.
Open Scope R_scope.

(** ** Exceptions and the error monad *)

Inductive value_error : Type :=
| math_domain_error
| outside_of_the_atmosphere
| pressure_outside_of_atmosphere.

Inductive exn : Type :=
| AssertionError
| ZeroDivisionError
| IndexError
| ValueError (why : value_error).

Inductive result (A : Type) : Type :=
| Ok (a : A)
| Raise (e : exn).

Arguments Ok {A} a.
Arguments Raise {A} e.

Definition bind {A B : Type} (m : result A) (k : A -> result B) : result B :=
  match m with
  | Ok a => k a
  | Raise e => Raise e
  end.

Notation "x <- m ;; k" := (bind m (fun x => k))
  (at level 61, m at next level, right associativity).
Notation "' p <- m ;; k" := (bind m (fun p => k))
  (at level 61, p pattern, m at next level, right associativity, only parsing).

(** ** Python primitives on (idealised) floats *)

Module Py.

Definition leb (x y : R) : bool := if Rle_dec x y then true else false.
Definition geb (x y : R) : bool := leb y x.

(** [x / y] *)
Definition truediv (x y : R) : result R :=
  if Req_dec_T y 0 then Raise ZeroDivisionError else Ok (x / y).

Definition is_integral (y : R) : bool :=
  if Req_dec_T (IZR (Int_part y)) y then true else false.

(** [math.pow(x, y)]: a negative base needs an integral exponent and a
    zero base a non-negative one, otherwise "math domain error". *)
Definition math_pow (x y : R) : result R :=
  if Rlt_dec 0 x then Ok (Rpower x y)
  else if Req_dec_T x 0 then
    if Rlt_dec y 0 then Raise (ValueError math_domain_error)
    else if Req_dec_T y 0 then Ok 1 else Ok 0
  else
    if is_integral y then Ok (powerRZ x (Int_part y))
    else Raise (ValueError math_domain_error).

(** Truth value of an optional float argument: [None] and [0.0] are
    falsy, so [v or d] evaluates [d] for both. *)
Definition or_else (v : option R) (d : result R) : result R :=
  match v with
  | Some x => if Req_dec_T x 0 then d else Ok x
  | None => d
  end.

End Py.

(** ** class ISALayer *)

Module ISALayer.

Definition grav_const : R := 9.8066.
Definition default_gas_const : R := 0.28704.

(** The attributes set by [__init__]; [oid] is the identity of the
    object, which is what [!=] compares (the class defines no [__eq__]). *)
Record t : Type := mk {
  oid : nat;
  height : R;
  tbot : R;
  base_press : R;
  gas_const : R;
  ttop : R
}.

Definition init (id : nat) (height lapse_rate base_temp base_press gas_const : R) : t :=
  {| oid := id;
     height := height;
     tbot := base_temp;
     base_press := base_press;
     gas_const := gas_const;
     ttop := base_temp + lapse_rate * height |}.

Definition slack : R := 1e-10.

Definition get_temperature_by_altitude (self : t) (altitude : R) : result R :=
  if Py.leb (- slack) altitude && Py.leb altitude (height self + slack) then
    q <- Py.truediv altitude (height self) ;;
    Ok (tbot self + (ttop self - tbot self) * q)
  else Raise AssertionError.

Definition get_pressure_by_altitude (self : t) (altitude : R) : result R :=
  exp <- Py.truediv (- grav_const * tbot self * height self)
                    (gas_const self * ttop self) ;;
  q <- Py.truediv (altitude * ttop self) (tbot self ^ 2 * height self) ;;
  let frac := 1 + q in
  pw <- Py.math_pow frac exp ;;
  Ok (base_press self * pw).

Definition get_altitude_by_pressure (self : t) (pressure : R) : result R :=
  co <- Py.truediv (tbot self ^ 2 * height self) (ttop self) ;;
  exp <- Py.truediv (gas_const self * ttop self)
                    (grav_const * tbot self * height self) ;;
  r <- Py.truediv (base_press self) pressure ;;
  pw <- Py.math_pow r exp ;;
  Ok (co * (pw - 1)).

Definition get_temperature_by_pressure (self : t) (pressure : R) : result R :=
  altitude <- get_altitude_by_pressure self pressure ;;
  get_temperature_by_altitude self altitude.

Definition ne (a b : t) : bool := negb (Nat.eqb (oid a) (oid b)).

End ISALayer.

(** ** class ISAModel *)

Module ISAModel.

(** The one attribute, [layers]: bottom layer first. *)
Definition t : Type := list ISALayer.t.

Definition empty : t := [].

(** [sum(l.height for l in self.layers)] *)
Definition height (self : t) : R :=
  fold_left (fun acc l => acc + ISALayer.height l) self 0.

(** [self.layers[-1]] *)
Definition last_layer (self : t) : result ISALayer.t :=
  match rev self with
  | [] => Raise IndexError
  | l :: _ => Ok l
  end.

(** A new object is distinct from every object already in the list. *)
Definition fresh_oid (self : t) : nat :=
  S (list_max (map ISALayer.oid self)).

(** Returns the model after the append; when an exception is raised the
    list is left as it was. *)
Definition add_layer (self : t) (height lapse_rate : R)
    (base_temp base_press : option R) : result t :=
  base_temp <- Py.or_else base_temp
    (l <- last_layer self ;;
     ISALayer.get_temperature_by_altitude l (ISALayer.height l)) ;;
  base_press <- Py.or_else base_press
    (l <- last_layer self ;;
     ISALayer.get_pressure_by_altitude l (ISALayer.height l)) ;;
  Ok (self ++ [ISALayer.init (fresh_oid self) height lapse_rate
                 base_temp base_press ISALayer.default_gas_const]).

Definition standard_config : result t :=
  atm <- add_layer empty 11.019 (-6.5) (Some (273.15 + 19.0)) (Some 101325) ;;
  atm <- add_layer atm (20.063 - 11.019) 0.0 None None ;;
  atm <- add_layer atm (32.162 - 20.063) 1.0 None None ;;
  atm <- add_layer atm (47.350 - 32.162) 2.8 None None ;;
  atm <- add_layer atm (51.413 - 47.350) 0.0 None None ;;
  atm <- add_layer atm (71.802 - 51.413) (-2.8) None None ;;
  atm <- add_layer atm (84.852 - 71.802) (-2.0) None None ;;
  Ok atm.

(** The [for] loop of [_get_layer_by_altitude], [alt] being the running
    sum on entry. *)
Fixpoint layer_by_altitude_from (layers : list ISALayer.t) (alt altitude : R)
    : result (ISALayer.t * R) :=
  match layers with
  | [] => Raise (ValueError outside_of_the_atmosphere)
  | layer :: rest =>
      let alt := alt + ISALayer.height layer in
      if Py.leb altitude alt
      then Ok (layer, altitude - alt + ISALayer.height layer)
      else layer_by_altitude_from rest alt altitude
  end.

Definition _get_layer_by_altitude (self : t) (altitude : R)
    : result (ISALayer.t * R) :=
  layer_by_altitude_from self 0.0 altitude.

Fixpoint _get_layer_by_pressure (self : t) (pressure : R) : result ISALayer.t :=
  match self with
  | [] => Raise (ValueError pressure_outside_of_atmosphere)
  | layer :: rest =>
      ptop <- ISALayer.get_pressure_by_altitude layer (ISALayer.height layer) ;;
      if Py.geb pressure ptop then Ok layer
      else _get_layer_by_pressure rest pressure
  end.

Definition get_temperature_by_altitude (self : t) (altitude : R) : result R :=
  '(layer, alt_within_layer) <- _get_layer_by_altitude self altitude ;;
  ISALayer.get_temperature_by_altitude layer alt_within_layer.

Definition get_temperature_by_pressure (self : t) (pressure : R) : result R :=
  layer <- _get_layer_by_pressure self pressure ;;
  ISALayer.get_temperature_by_pressure layer pressure.

Definition get_pressure_by_altitude (self : t) (altitude : R) : result R :=
  '(layer, alt_within_layer) <- _get_layer_by_altitude self altitude ;;
  ISALayer.get_pressure_by_altitude layer alt_within_layer.

(** The second loop of [get_altitude_by_pressure]: heights are added
    until the first element that is the object [layer]. *)
Fixpoint add_heights_below (layers : list ISALayer.t) (layer : ISALayer.t)
    (alt : R) : R :=
  match layers with
  | [] => alt
  | l :: rest =>
      if ISALayer.ne l layer
      then add_heights_below rest layer (alt + ISALayer.height l)
      else alt
  end.

Definition get_altitude_by_pressure (self : t) (pressure : R) : result R :=
  layer <- _get_layer_by_pressure self pressure ;;
  alt <- ISALayer.get_altitude_by_pressure layer pressure ;;
  Ok (add_heights_below self layer alt).

End ISAModel.

(** * Vocabulary of the statements *)

(** The step of the sum in [ISAModel.height]. *)
Definition add_height (acc : R) (l : ISALayer.t) : R := acc + ISALayer.height l.

(** The invariant the data model asks of a layer. *)
Record positive (l : ISALayer.t) : Prop := Positive {
  pos_height : 0 < ISALayer.height l;
  pos_tbot : 0 < ISALayer.tbot l;
  pos_ttop : 0 < ISALayer.ttop l;
  pos_press : 0 < ISALayer.base_press l
}.

(** The base and the exponent of the power in
    [ISALayer.get_pressure_by_altitude], and the value it returns, as
    real expressions. *)
Definition frac_at (l : ISALayer.t) (a : R) : R :=
  1 + a * ISALayer.ttop l / (ISALayer.tbot l ^ 2 * ISALayer.height l).

Definition exponent (l : ISALayer.t) : R :=
  - ISALayer.grav_const * ISALayer.tbot l * ISALayer.height l
  / (ISALayer.gas_const l * ISALayer.ttop l).

Definition pressure_at (l : ISALayer.t) (a : R) : R :=
  ISALayer.base_press l * Rpower (frac_at l a) (exponent l).

Definition top_pressure (l : ISALayer.t) : R := pressure_at l (ISALayer.height l).

(** Sample layers: the troposphere of the standard configuration, a
    layer whose gas constant is zero, and an isothermal layer whose gas
    constant makes the exponent [-1]. *)
Definition troposphere : ISALayer.t :=
  ISALayer.init 1 11.019 (-6.5) (273.15 + 19.0) 101325 ISALayer.default_gas_const.

Definition zero_gas_layer : ISALayer.t := ISALayer.init 1 1 0 1 1 0.

Definition unit_isothermal_layer : ISALayer.t := ISALayer.init 1 1 0 1 1 9.8066.

(** The isothermal barometric law. *)
Definition isothermal_pressure (base_press gas_const base_temp a : R) : R :=
  base_press * exp (- ISALayer.grav_const * a / (gas_const * base_temp)).


(** The top pressure of a layer as the code computes it. *)
Definition top_of (l : ISALayer.t) (p : R) : Prop :=
  ISALayer.get_pressure_by_altitude l (ISALayer.height l) = Ok p.

(** A relation holding between every layer and the one above it. *)
Fixpoint adjacent (P : ISALayer.t -> ISALayer.t -> Prop) (m : list ISALayer.t) : Prop :=
  match m with
  | lo :: (hi :: _) as rest => P lo hi /\ adjacent P rest
  | _ => True
  end.

(** Pressure continuity: a layer starts at the top pressure of the layer
    below it. *)
Definition contiguous (m : list ISALayer.t) : Prop :=
  adjacent (fun lo hi => ISALayer.base_press hi = top_pressure lo) m.

(** Both quantities agree at the boundary between two layers. *)
Definition boundary_agrees (lo hi : ISALayer.t) : Prop :=
  exists T P,
    ISALayer.get_temperature_by_altitude lo (ISALayer.height lo) = Ok T /\
    ISALayer.get_temperature_by_altitude hi 0 = Ok T /\
    ISALayer.get_pressure_by_altitude lo (ISALayer.height lo) = Ok P /\
    ISALayer.get_pressure_by_altitude hi 0 = Ok P.

(** An object has one state: two list entries with the same identity
    are the same layer. *)
Definition one_state_per_object (m : list ISALayer.t) : Prop :=
  forall l1 l2, In l1 m -> In l2 m -> ISALayer.oid l1 = ISALayer.oid l2 -> l1 = l2.

(** A model with a single layer of height zero. *)
Definition zero_height_model : ISAModel.t :=
  [ISALayer.init 1 0 0 300 1000 ISALayer.default_gas_const].

(** The layer that [add_layer] appends on top of [below] when both base
    values are omitted, and the seven layers of the standard
    configuration. *)
Definition next_layer (id : nat) (below : ISALayer.t) (height lapse_rate : R) : ISALayer.t :=
  ISALayer.init id height lapse_rate (ISALayer.ttop below) (top_pressure below)
    ISALayer.default_gas_const.

Definition tropopause : ISALayer.t := next_layer 2 troposphere (20.063 - 11.019) 0.0.
Definition stratosphere_lower : ISALayer.t := next_layer 3 tropopause (32.162 - 20.063) 1.0.
Definition stratosphere_upper : ISALayer.t := next_layer 4 stratosphere_lower (47.350 - 32.162) 2.8.
Definition stratopause : ISALayer.t := next_layer 5 stratosphere_upper (51.413 - 47.350) 0.0.
Definition mesosphere_lower : ISALayer.t := next_layer 6 stratopause (71.802 - 51.413) (-2.8).
Definition mesosphere_upper : ISALayer.t := next_layer 7 mesosphere_lower (84.852 - 71.802) (-2.0).

Definition standard_layers : ISAModel.t :=
  [troposphere; tropopause; stratosphere_lower; stratosphere_upper;
   stratopause; mesosphere_lower; mesosphere_upper].

(** The test of [_get_layer_by_pressure] on one layer: the layer is
    skipped when the query is below its top pressure and matched
    otherwise. *)
Definition skipped (q : R) (l : ISALayer.t) : Prop := exists p, top_of l p /\ q < p.

Definition matched (q : R) (l : ISALayer.t) : Prop := exists p, top_of l p /\ p <= q.

(** A well-formed stack of layers: every layer satisfies the layer
    invariant and has a positive gas constant, and the base pressure of
    each layer is the top pressure of the layer below it. *)
Record well_formed (m : list ISALayer.t) : Prop := WellFormed {
  wf_positive : Forall positive m;
  wf_gas_const : Forall (fun l => 0 < ISALayer.gas_const l) m;
  wf_contiguous : contiguous m
}.




(** The value [ISALayer.get_altitude_by_pressure] returns, as a real
    expression. *)
Definition altitude_at (l : ISALayer.t) (p : R) : R :=
  ISALayer.tbot l ^ 2 * ISALayer.height l / ISALayer.ttop l
  * (Rpower (ISALayer.base_press l / p)
       (ISALayer.gas_const l * ISALayer.ttop l
        / (ISALayer.grav_const * ISALayer.tbot l * ISALayer.height l)) - 1).


(** * Properties *)

(** ** The primitives *)

Lemma leb_true (x y : R) : Py.leb x y = true <-> x <= y.
Proof. unfold Py.leb. destruct (Rle_dec x y); split; intros; congruence || assumption. Qed.

Lemma leb_false (x y : R) : Py.leb x y = false <-> y < x.
Proof.
  unfold Py.leb. destruct (Rle_dec x y); split; intros; try congruence; lra.
Qed.

Lemma geb_true (x y : R) : Py.geb x y = true <-> y <= x.
Proof. apply leb_true. Qed.

Lemma geb_false (x y : R) : Py.geb x y = false <-> x < y.
Proof. apply leb_false. Qed.

Lemma truediv_ok (x y : R) : y <> 0 -> Py.truediv x y = Ok (x / y).
Proof. intros H. unfold Py.truediv. destruct (Req_dec_T y 0); [contradiction | reflexivity]. Qed.

Lemma truediv_zero (x : R) : Py.truediv x 0 = Raise ZeroDivisionError.
Proof. unfold Py.truediv. destruct (Req_dec_T 0 0); [reflexivity | contradiction]. Qed.

Lemma truediv_inv (x y q : R) : Py.truediv x y = Ok q -> y <> 0 /\ q = x / y.
Proof.
  unfold Py.truediv. destruct (Req_dec_T y 0); intros H; inversion H; auto.
Qed.

Lemma math_pow_pos (x y : R) : 0 < x -> Py.math_pow x y = Ok (Rpower x y).
Proof. intros H. unfold Py.math_pow. destruct (Rlt_dec 0 x); [reflexivity | contradiction]. Qed.

Lemma or_else_none (d : result R) : Py.or_else None d = d.
Proof. reflexivity. Qed.

Lemma or_else_some (x : R) (d : result R) : x <> 0 -> Py.or_else (Some x) d = Ok x.
Proof. intros H. simpl. destruct (Req_dec_T x 0); [contradiction | reflexivity]. Qed.

Lemma Rpower_pos (x y : R) : 0 < Rpower x y.
Proof. unfold Rpower. apply exp_pos. Qed.

Lemma Rpower_one_base (y : R) : Rpower 1 y = 1.
Proof. unfold Rpower. rewrite ln_1, Rmult_0_r. apply exp_0. Qed.

(** A power with a negative exponent decreases strictly in its base. *)
Lemma Rpower_neg_exp_decr (x y e : R) :
  0 < x -> x < y -> e < 0 -> Rpower y e < Rpower x e.
Proof.
  intros Hx Hxy He. unfold Rpower. apply exp_increasing.
  assert (ln x < ln y) by (apply ln_increasing; lra). nra.
Qed.

(** A power with a positive exponent increases strictly in its base. *)
Lemma Rpower_pos_exp_incr (x y e : R) :
  0 < x -> x < y -> 0 < e -> Rpower x e < Rpower y e.
Proof.
  intros Hx Hxy He. unfold Rpower. apply exp_increasing.
  assert (ln x < ln y) by (apply ln_increasing; lra). nra.
Qed.

(** ** One layer *)

Section Layer.

Import ISALayer.

Lemma grav_const_pos : 0 < grav_const.
Proof. unfold grav_const. lra. Qed.

Lemma default_gas_const_pos : 0 < default_gas_const.
Proof. unfold default_gas_const. lra. Qed.

Lemma denom_pos (l : t) : positive l -> 0 < tbot l ^ 2 * height l.
Proof. intros [Hh Hb _ _]. apply Rmult_lt_0_compat; [nra | assumption]. Qed.

Lemma frac_at_zero (l : t) : frac_at l 0 = 1.
Proof. unfold frac_at. unfold Rdiv. ring. Qed.

Lemma frac_at_incr (l : t) (a b : R) :
  positive l -> a < b -> frac_at l a < frac_at l b.
Proof.
  intros Hl Hab. pose proof (denom_pos l Hl) as Hd. destruct Hl as [_ _ Ht _].
  unfold frac_at. apply Rplus_lt_compat_l. unfold Rdiv.
  apply Rmult_lt_compat_r; [apply Rinv_0_lt_compat; assumption | nra].
Qed.

Lemma frac_at_ge_1 (l : t) (a : R) : positive l -> 0 <= a -> 1 <= frac_at l a.
Proof.
  intros Hl [Ha | <-].
  - rewrite <- (frac_at_zero l). left. apply frac_at_incr; assumption.
  - rewrite frac_at_zero. lra.
Qed.

Lemma exponent_neg (l : t) : positive l -> 0 < gas_const l -> exponent l < 0.
Proof.
  intros [Hh Hb Ht _] Hg. pose proof grav_const_pos as HG. unfold exponent.
  assert (0 < grav_const * tbot l * height l)
    by (apply Rmult_lt_0_compat; [apply Rmult_lt_0_compat |]; assumption).
  assert (0 < / (gas_const l * ttop l))
    by (apply Rinv_0_lt_compat, Rmult_lt_0_compat; assumption).
  unfold Rdiv. nra.
Qed.

(** Whenever the three divisors are non-zero and the base of the power
    is positive, the method returns the closed form. *)
Lemma get_pressure_by_altitude_value (l : t) (a : R) :
  gas_const l * ttop l <> 0 -> tbot l ^ 2 * height l <> 0 -> 0 < frac_at l a ->
  get_pressure_by_altitude l a = Ok (pressure_at l a).
Proof.
  intros H1 H2 H3. unfold get_pressure_by_altitude.
  rewrite (truediv_ok _ _ H1). cbn [bind].
  rewrite (truediv_ok _ _ H2). cbn [bind].
  fold (frac_at l a). rewrite (math_pow_pos _ _ H3). reflexivity.
Qed.

Lemma get_pressure_by_altitude_positive (l : t) (a : R) :
  positive l -> gas_const l <> 0 -> 0 <= a ->
  get_pressure_by_altitude l a = Ok (pressure_at l a).
Proof.
  intros Hl Hg Ha. pose proof (denom_pos l Hl). pose proof (frac_at_ge_1 l a Hl Ha).
  apply get_pressure_by_altitude_value; try lra. destruct Hl. nra.
Qed.

Lemma pressure_at_pos (l : t) (a : R) : 0 < base_press l -> 0 < pressure_at l a.
Proof. intros H. unfold pressure_at. apply Rmult_lt_0_compat; [assumption | apply Rpower_pos]. Qed.

Lemma pressure_at_zero (l : t) : pressure_at l 0 = base_press l.
Proof. unfold pressure_at. rewrite frac_at_zero, Rpower_one_base. ring. Qed.

(** Within one layer the pressure falls strictly with altitude. *)
Lemma pressure_at_decr (l : t) (a b : R) :
  positive l -> 0 < gas_const l -> 0 <= a -> a < b ->
  pressure_at l b < pressure_at l a.
Proof.
  intros Hl Hg Ha Hab. unfold pressure_at.
  apply Rmult_lt_compat_l; [apply Hl |].
  apply Rpower_neg_exp_decr.
  - pose proof (frac_at_ge_1 l a Hl Ha). lra.
  - apply frac_at_incr; assumption.
  - apply exponent_neg; assumption.
Qed.

(** The inverse applied to a pressure of the closed form. *)
Lemma get_altitude_by_pressure_inverse (l : t) (a : R) :
  positive l -> gas_const l <> 0 -> 0 < frac_at l a ->
  get_altitude_by_pressure l (pressure_at l a) = Ok a.
Proof.
  intros Hl Hg Hf. pose proof (denom_pos l Hl) as Hd.
  pose proof grav_const_pos as HG. destruct Hl as [Hh Hb Ht Hp].
  assert (Hp' : pressure_at l a <> 0)
    by (apply Rgt_not_eq, pressure_at_pos; assumption).
  assert (Hgth : grav_const * tbot l * height l <> 0)
    by (apply Rgt_not_eq, Rmult_lt_0_compat; [apply Rmult_lt_0_compat |]; assumption).
  unfold get_altitude_by_pressure.
  rewrite truediv_ok by lra. cbn [bind].
  rewrite truediv_ok by assumption. cbn [bind].
  rewrite truediv_ok by assumption. cbn [bind].
  assert (Hr : base_press l / pressure_at l a = Rpower (frac_at l a) (- exponent l)).
  { rewrite Rpower_Ropp. unfold pressure_at.
    pose proof (Rpower_pos (frac_at l a) (exponent l)). field. split; lra. }
  rewrite Hr. rewrite math_pow_pos by apply Rpower_pos. cbn [bind].
  rewrite Rpower_mult.
  replace (- exponent l * (gas_const l * ttop l / (grav_const * tbot l * height l)))
    with 1 by (unfold exponent; field; repeat split; lra).
  rewrite Rpower_1 by assumption.
  f_equal. unfold frac_at. field. repeat split; lra.
Qed.

End Layer.

(** ** Claims about one layer *)

Section LayerClaims.

Import ISALayer.

Lemma troposphere_positive : positive troposphere.
Proof. constructor; cbn; lra. Qed.






(** The assertion of [get_temperature_by_altitude] is its only domain
    check. *)
Lemma get_temperature_by_altitude_assert (l : t) (a : R) :
  get_temperature_by_altitude l a = Raise AssertionError <->
  (a < - slack \/ height l + slack < a).
Proof.
  unfold get_temperature_by_altitude.
  destruct (Py.leb (- slack) a) eqn:E1; destruct (Py.leb a (height l + slack)) eqn:E2;
    cbn [andb].
  - apply leb_true in E1, E2. split; [| lra].
    unfold Py.truediv. destruct (Req_dec_T (height l) 0); cbn; discriminate.
  - apply leb_false in E2. tauto.
  - apply leb_false in E1. tauto.
  - apply leb_false in E1. tauto.
Qed.

(** The inverse at a pressure above the base pressure: a negative
    altitude. *)
Lemma get_altitude_by_pressure_above_base (l : t) (p : R) :
  positive l -> 0 < gas_const l -> base_press l < p ->
  exists alt, get_altitude_by_pressure l p = Ok alt /\ alt < 0.
Proof.
  intros Hl Hg Hp. pose proof (denom_pos l Hl) as Hd.
  pose proof grav_const_pos as HG. destruct Hl as [Hh Hb Ht Hbp].
  assert (Hgth : 0 < grav_const * tbot l * height l)
    by (apply Rmult_lt_0_compat; [apply Rmult_lt_0_compat |]; assumption).
  assert (Hr : 0 < base_press l / p < 1).
  { split; [apply Rdiv_lt_0_compat; lra |].
    apply Rmult_lt_reg_r with p; [lra |]. unfold Rdiv.
    rewrite Rmult_assoc, Rinv_l; lra. }
  assert (He : 0 < gas_const l * ttop l / (grav_const * tbot l * height l))
    by (apply Rdiv_lt_0_compat; [apply Rmult_lt_0_compat |]; assumption).
  assert (Hco : 0 < tbot l ^ 2 * height l / ttop l)
    by (apply Rdiv_lt_0_compat; assumption).
  unfold get_altitude_by_pressure.
  rewrite !truediv_ok by lra. cbn [bind].
  rewrite math_pow_pos by lra. cbn [bind].
  eexists; split; [reflexivity |].
  pose proof (Rpower_pos_exp_incr (base_press l / p) 1 _ (proj1 Hr) (proj2 Hr) He) as Hlt.
  rewrite Rpower_one_base in Hlt. nra.
Qed.

End LayerClaims.

Section LayerTheorems.

Import ISALayer.

Lemma ln_1_plus_lt (x : R) : 0 < x -> ln (1 + x) < x.
Proof.
  intros Hx. rewrite <- (ln_exp x) at 2.
  apply ln_increasing; [lra | apply exp_ineq1; lra].
Qed.

(** C1, as stated, fails for a layer whose gas constant is zero: the
    hypotheses of the claim hold and [get_pressure_by_altitude] raises
    [ZeroDivisionError]. *)
Lemma layer_round_trip_zero_gas_const :
  positive zero_gas_layer /\
  0 <= 1 / 2 <= height zero_gas_layer /\
  get_pressure_by_altitude zero_gas_layer (1 / 2) = Raise ZeroDivisionError.
Proof.
  split; [constructor; cbn; lra |]. split; [cbn; lra |].
  unfold get_pressure_by_altitude. cbn [zero_gas_layer init gas_const ttop tbot height].
  rewrite Rmult_0_l. rewrite truediv_zero. reflexivity.
Qed.

(** C3, as stated, fails: an isothermal layer of height 1, base
    temperature 1, base pressure 1 and gas constant 9.8066 has pressure
    [1/2] at its top, and the isothermal exponential there is [exp (-1)]. *)
Lemma zero_lapse_not_isothermal :
  ttop unit_isothermal_layer = tbot unit_isothermal_layer /\
  0 <= 1 <= height unit_isothermal_layer /\
  get_pressure_by_altitude unit_isothermal_layer 1 = Ok (1 / 2) /\
  1 / 2 <> isothermal_pressure 1 9.8066 1 1.
Proof.
  split; [cbn; ring |]. split; [cbn; lra |]. split.
  - rewrite get_pressure_by_altitude_value; try (cbn; lra).
    + f_equal. unfold pressure_at.
      replace (frac_at unit_isothermal_layer 1) with 2
        by (unfold frac_at; cbn; field).
      replace (exponent unit_isothermal_layer) with (- (1))
        by (unfold exponent, grav_const; cbn; field; lra).
      rewrite Rpower_Ropp, Rpower_1 by lra. cbn. field.
    + replace (frac_at unit_isothermal_layer 1) with 2
        by (unfold frac_at; cbn; field). lra.
  - unfold isothermal_pressure. fold grav_const.
    replace (- grav_const * 1 / (grav_const * 1)) with (- (1))
      by (field; apply Rgt_not_eq, grav_const_pos).
    rewrite exp_Ropp.
    assert (H : 2 < exp 1) by (pose proof (exp_ineq1 1); lra).
    assert (/ exp 1 < / 2) by (apply Rinv_lt_contravar; lra).
    lra.
Qed.

(** C3 (amended): for a layer built with lapse rate 0, positive height,
    base temperature, base pressure and gas constant, and a local
    altitude [a] in [[0, height]], [get_pressure_by_altitude] returns,
    with no special case, [base_press * (1 + a / (base_temp * height)) ^
    (- g * height / gas_const)]; this value is at least the isothermal
    exponential [base_press * exp (- g * a / (gas_const * base_temp))]
    and equals it only at [a = 0]. *)
Theorem zero_lapse_pressure (id : nat) (h T bp gas a : R) :
  0 < h -> 0 < T -> 0 < bp -> 0 < gas -> 0 <= a <= h ->
  exists p,
    get_pressure_by_altitude (init id h 0 T bp gas) a = Ok p /\
    p = bp * Rpower (1 + a / (T * h)) (- grav_const * h / gas) /\
    isothermal_pressure bp gas T a <= p /\
    (p = isothermal_pressure bp gas T a <-> a = 0).
Proof.
  intros Hh HT Hbp Hgas [Ha _]. pose proof grav_const_pos as HG.
  set (l := init id h 0 T bp gas).
  assert (Hl : positive l) by (constructor; cbn; nra).
  assert (Hf : frac_at l a = 1 + a / (T * h))
    by (unfold frac_at; cbn; field; split; lra).
  assert (He : exponent l = - grav_const * h / gas)
    by (unfold exponent; cbn; field; split; lra).
  assert (Hiso : isothermal_pressure bp gas T a
                 = bp * exp (- grav_const * h / gas * (a / (T * h)))).
  { unfold isothermal_pressure. do 2 f_equal. field. repeat split; lra. }
  assert (Hk : - grav_const * h / gas < 0).
  { unfold Rdiv. assert (0 < / gas) by (apply Rinv_0_lt_compat; lra).
    assert (0 < grav_const * h) by (apply Rmult_lt_0_compat; assumption). nra. }
  exists (pressure_at l a).
  split; [apply get_pressure_by_altitude_positive; cbn; try assumption; lra |].
  unfold pressure_at. rewrite Hf, He. cbn [base_press l init].
  split; [reflexivity |].
  rewrite Hiso. unfold Rpower.
  destruct Ha as [Ha | <-].
  - assert (Hx : 0 < a / (T * h)) by (apply Rdiv_lt_0_compat; nra).
    pose proof (ln_1_plus_lt _ Hx) as Hln.
    assert (Hlt : exp (- grav_const * h / gas * (a / (T * h)))
                  < exp (- grav_const * h / gas * ln (1 + a / (T * h))))
      by (apply exp_increasing; nra).
    split; [nra |]. split; [nra | lra].
  - replace (0 / (T * h)) with 0 by (field; split; lra).
    rewrite Rplus_0_r, ln_1. split; [lra | tauto].
Qed.

Lemma zero_lapse_pressure_witness :
  exists p,
    get_pressure_by_altitude (init 2 9.044 0 220.5265 22000 0.28704) 4 = Ok p /\
    p = 22000 * Rpower (1 + 4 / (220.5265 * 9.044)) (- grav_const * 9.044 / 0.28704) /\
    isothermal_pressure 22000 0.28704 220.5265 4 <= p /\
    (p = isothermal_pressure 22000 0.28704 220.5265 4 <-> 4 = 0).
Proof.
  apply (zero_lapse_pressure 2 9.044 220.5265 22000 0.28704 4); lra.
Defined.

End LayerTheorems.

(** ** Locating a layer by altitude *)

Section Locate.

Import ISALayer.

Lemma float_zero : 0.0 = 0.
Proof. lra. Qed.

Lemma fold_heights_shift (m : list t) (acc : R) :
  fold_left add_height m acc = acc + ISAModel.height m.
Proof.
  unfold ISAModel.height. fold add_height.
  revert acc. induction m as [| l m IH]; intros acc; cbn.
  - ring.
  - rewrite IH, (IH (add_height 0 l)). unfold add_height. ring.
Qed.

Lemma height_cons (l : t) (m : list t) :
  ISAModel.height (l :: m) = height l + ISAModel.height m.
Proof.
  unfold ISAModel.height at 1. cbn. fold add_height.
  rewrite fold_heights_shift. ring.
Qed.

Lemma height_nonneg (m : list t) :
  Forall (fun l => 0 < height l) m -> 0 <= ISAModel.height m.
Proof.
  induction 1 as [| l m Hl _ IH].
  - unfold ISAModel.height. cbn. lra.
  - rewrite height_cons. lra.
Qed.

Lemma height_pos (l : t) (m : list t) :
  Forall (fun l => 0 < height l) (l :: m) -> 0 < ISAModel.height (l :: m).
Proof.
  intros H. inversion H as [| ? ? Hl Hm]; subst. rewrite height_cons.
  pose proof (height_nonneg m Hm). lra.
Qed.

Lemma positive_heights (m : list t) :
  Forall positive m -> Forall (fun l => 0 < height l) m.
Proof. apply Forall_impl. intros l Hl. apply Hl. Qed.

(** The query falls into the bottom layer of the remaining ones. *)
Lemma locate_here (l : t) (rest : list t) (acc a : R) :
  a <= acc + height l ->
  ISAModel.layer_by_altitude_from (l :: rest) acc a = Ok (l, a - (acc + height l) + height l).
Proof.
  intros H. cbn. apply leb_true in H. rewrite H. reflexivity.
Qed.

(** The query lies above the bottom layer of the remaining ones. *)
Lemma locate_next (l : t) (rest : list t) (acc a : R) :
  acc + height l < a ->
  ISAModel.layer_by_altitude_from (l :: rest) acc a
  = ISAModel.layer_by_altitude_from rest (acc + height l) a.
Proof.
  intros H. cbn. apply leb_false in H. rewrite H. reflexivity.
Qed.

Lemma locate_above (m : list t) (acc a : R) :
  Forall (fun l => 0 < height l) m -> acc + ISAModel.height m < a ->
  ISAModel.layer_by_altitude_from m acc a = Raise (ValueError outside_of_the_atmosphere).
Proof.
  intros Hm. revert acc. induction Hm as [| l m Hl Hm IH]; intros acc Ha.
  - reflexivity.
  - rewrite height_cons in Ha. pose proof (height_nonneg m Hm).
    rewrite locate_next by lra. apply IH. lra.
Qed.

Lemma locate_top (pre : list t) (l : t) (acc : R) :
  Forall (fun l => 0 < height l) (pre ++ [l]) ->
  exists x,
    ISAModel.layer_by_altitude_from (pre ++ [l]) acc (acc + ISAModel.height (pre ++ [l]))
    = Ok (l, x) /\ x = height l.
Proof.
  revert acc. induction pre as [| l' pre IH]; intros acc Hm.
  - cbn [app]. rewrite height_cons. unfold ISAModel.height. cbn [fold_left].
    rewrite locate_here by lra. eexists. split; [reflexivity | ring].
  - cbn [app] in *. inversion Hm as [| ? ? Hl' Hrest]; subst.
    rewrite height_cons.
    assert (Hp : 0 < ISAModel.height (pre ++ [l])).
    { destruct pre; cbn [app] in *; apply height_pos; assumption. }
    rewrite locate_next by lra.
    replace (acc + (height l' + ISAModel.height (pre ++ [l])))
      with ((acc + height l') + ISAModel.height (pre ++ [l])) by ring.
    apply IH. assumption.
Qed.

Lemma last_layer_app (pre : list t) (l : t) : ISAModel.last_layer (pre ++ [l]) = Ok l.
Proof. unfold ISAModel.last_layer. rewrite rev_unit. reflexivity. Qed.

Lemma last_layer_inv (m : list t) (l : t) :
  ISAModel.last_layer m = Ok l -> exists pre, m = pre ++ [l].
Proof.
  unfold ISAModel.last_layer. destruct (rev m) as [| x r] eqn:E; intros H; inversion H; subst.
  exists (rev r). rewrite <- (rev_involutive m), E. reflexivity.
Qed.

Lemma get_temperature_by_altitude_value (l : t) (a : R) :
  height l <> 0 -> - slack <= a <= height l + slack ->
  get_temperature_by_altitude l a = Ok (tbot l + (ttop l - tbot l) * (a / height l)).
Proof.
  intros Hh [H1 H2]. unfold get_temperature_by_altitude.
  apply leb_true in H1, H2. rewrite H1, H2. cbn [andb].
  rewrite truediv_ok by assumption. reflexivity.
Qed.

Lemma slack_pos : 0 < slack.
Proof. unfold slack. lra. Qed.

Lemma temperature_at_bottom (l : t) :
  0 < height l -> get_temperature_by_altitude l 0 = Ok (tbot l).
Proof.
  intros Hh. pose proof slack_pos.
  rewrite get_temperature_by_altitude_value by lra.
  f_equal. field. lra.
Qed.

Lemma temperature_at_top (l : t) :
  0 < height l -> get_temperature_by_altitude l (height l) = Ok (ttop l).
Proof.
  intros Hh. pose proof slack_pos.
  rewrite get_temperature_by_altitude_value by lra.
  f_equal. field. lra.
Qed.

Lemma pressure_at_bottom (l : t) :
  positive l -> gas_const l <> 0 -> get_pressure_by_altitude l 0 = Ok (base_press l).
Proof.
  intros Hl Hg. rewrite get_pressure_by_altitude_positive by (assumption || lra).
  f_equal. apply pressure_at_zero.
Qed.

Lemma pressure_at_top (l : t) :
  positive l -> gas_const l <> 0 -> top_of l (top_pressure l).
Proof.
  intros Hl Hg. apply get_pressure_by_altitude_positive; try assumption.
  destruct Hl. lra.
Qed.

End Locate.

(** ** Queries at the two ends of a model *)

Section Boundary.

Import ISALayer.

Lemma get_layer_at_zero (l0 : t) (rest : list t) :
  0 < height l0 -> ISAModel._get_layer_by_altitude (l0 :: rest) 0 = Ok (l0, 0).
Proof.
  intros Hh. unfold ISAModel._get_layer_by_altitude. rewrite float_zero.
  rewrite locate_here by lra. do 2 f_equal. ring.
Qed.

Lemma get_layer_at_top (pre : list t) (lN : t) :
  Forall (fun l => 0 < height l) (pre ++ [lN]) ->
  ISAModel._get_layer_by_altitude (pre ++ [lN]) (ISAModel.height (pre ++ [lN]))
  = Ok (lN, height lN).
Proof.
  intros Hh. unfold ISAModel._get_layer_by_altitude. rewrite float_zero.
  destruct (locate_top pre lN 0 Hh) as [x [Hx ->]].
  rewrite Rplus_0_l in Hx. exact Hx.
Qed.

Lemma get_layer_above (m : list t) (a : R) :
  Forall (fun l => 0 < height l) m -> ISAModel.height m < a ->
  ISAModel._get_layer_by_altitude m a = Raise (ValueError outside_of_the_atmosphere).
Proof.
  intros Hh Ha. unfold ISAModel._get_layer_by_altitude. rewrite float_zero.
  apply locate_above; [assumption | lra].
Qed.

(** C7, as stated, fails for a model whose only layer has height zero:
    [add_layer] accepts the layer, and the temperature query at altitude
    0 raises [ZeroDivisionError]. *)
Lemma zero_height_model_query_fails :
  ISAModel.add_layer ISAModel.empty 0 0 (Some 300) (Some 1000) = Ok zero_height_model /\
  zero_height_model <> [] /\
  ISAModel.get_temperature_by_altitude zero_height_model 0 = Raise ZeroDivisionError.
Proof.
  split; [| split; [discriminate |]].
  - unfold ISAModel.add_layer. rewrite !or_else_some by lra. reflexivity.
  - unfold ISAModel.get_temperature_by_altitude, ISAModel._get_layer_by_altitude,
      zero_height_model.
    rewrite locate_here by (cbn; lra). cbn [bind].
    unfold get_temperature_by_altitude. cbn [height init].
    rewrite (proj2 (leb_true _ _)) by (unfold slack; lra).
    rewrite (proj2 (leb_true _ _)) by (unfold slack; lra).
    cbn [andb]. rewrite truediv_zero. reflexivity.
Qed.

(** C7 (amended): in a model with at least one layer, all of whose
    layers have positive height, temperatures and base pressure and a
    non-zero gas constant, the temperature and pressure queries at
    altitude 0 return the base values of the bottom layer, at altitude
    [height] they return the top values of the top layer, and at
    [height + 1] both raise the out-of-atmosphere [ValueError]. *)
Theorem model_boundary_queries (m : ISAModel.t) (l0 lN : t) (rest : list t) :
  m = l0 :: rest -> ISAModel.last_layer m = Ok lN ->
  Forall positive m -> Forall (fun l => gas_const l <> 0) m ->
  ISAModel.get_temperature_by_altitude m 0 = Ok (tbot l0) /\
  ISAModel.get_pressure_by_altitude m 0 = Ok (base_press l0) /\
  ISAModel.get_temperature_by_altitude m (ISAModel.height m) = Ok (ttop lN) /\
  ISAModel.get_pressure_by_altitude m (ISAModel.height m) = Ok (top_pressure lN) /\
  ISAModel.get_temperature_by_altitude m (ISAModel.height m + 1)
    = Raise (ValueError outside_of_the_atmosphere) /\
  ISAModel.get_pressure_by_altitude m (ISAModel.height m + 1)
    = Raise (ValueError outside_of_the_atmosphere).
Proof.
  intros Hm Hlast Hpos Hgas.
  pose proof (positive_heights m Hpos) as Hh.
  assert (H0 : positive l0 /\ gas_const l0 <> 0).
  { subst m. inversion Hpos; inversion Hgas; subst. auto. }
  assert (HN : positive lN /\ gas_const lN <> 0).
  { apply last_layer_inv in Hlast as [pre ->].
    rewrite Forall_forall in Hpos, Hgas.
    split; [apply Hpos | apply Hgas]; apply in_or_app; right; now left. }
  destruct H0 as [Hp0 Hg0], HN as [HpN HgN].
  unfold ISAModel.get_temperature_by_altitude, ISAModel.get_pressure_by_altitude.
  assert (Hbot : ISAModel._get_layer_by_altitude m 0 = Ok (l0, 0))
    by (subst m; apply get_layer_at_zero, Hp0).
  assert (Htop : ISAModel._get_layer_by_altitude m (ISAModel.height m)
                 = Ok (lN, height lN)).
  { apply last_layer_inv in Hlast as [pre Hpre]. rewrite Hpre in *.
    apply get_layer_at_top. assumption. }
  assert (Habove : ISAModel._get_layer_by_altitude m (ISAModel.height m + 1)
                   = Raise (ValueError outside_of_the_atmosphere))
    by (apply get_layer_above; [assumption | lra]).
  rewrite Hbot, Htop, Habove. cbn [bind].
  repeat split.
  - apply temperature_at_bottom, Hp0.
  - apply pressure_at_bottom; assumption.
  - apply temperature_at_top, HpN.
  - apply pressure_at_top; assumption.
Qed.

End Boundary.

(** ** Adding layers; the standard configuration *)

Section Construction.

Import ISALayer.

Lemma next_layer_positive (id : nat) (below : t) (h lr : R) :
  positive below -> 0 < h -> 0 < ttop below + lr * h ->
  positive (next_layer id below h lr).
Proof.
  intros Hb Hh Ht. constructor; cbn; try assumption.
  - apply Hb.
  - apply pressure_at_pos, Hb.
Qed.

Lemma next_layer_gas_const (id : nat) (below : t) (h lr : R) :
  gas_const (next_layer id below h lr) = default_gas_const.
Proof. reflexivity. Qed.

(** With both base values omitted the new layer continues the last one. *)
Lemma add_layer_omitted (m : ISAModel.t) (l : t) (h lr : R) :
  ISAModel.last_layer m = Ok l -> positive l -> gas_const l <> 0 ->
  ISAModel.add_layer m h lr None None
  = Ok (m ++ [next_layer (ISAModel.fresh_oid m) l h lr]).
Proof.
  intros Hlast Hl Hg. unfold ISAModel.add_layer.
  rewrite !or_else_none, Hlast. cbn [bind].
  rewrite temperature_at_top by apply Hl. cbn [bind].
  rewrite (pressure_at_top l Hl Hg). reflexivity.
Qed.

Lemma ttop_standard :
  ttop troposphere = 220.5265 /\ ttop tropopause = 220.5265 /\
  ttop stratosphere_lower = 232.6255 /\ ttop stratosphere_upper = 275.1519 /\
  ttop stratopause = 275.1519 /\ ttop mesosphere_lower = 218.0627 /\
  ttop mesosphere_upper = 191.9627.
Proof.
  unfold mesosphere_upper, mesosphere_lower, stratopause, stratosphere_upper,
    stratosphere_lower, tropopause, next_layer, troposphere, init.
  cbn [ttop]. repeat split; lra.
Qed.

Lemma standard_layers_positive : Forall positive standard_layers.
Proof.
  destruct ttop_standard as (T1 & T2 & T3 & T4 & T5 & T6 & T7).
  assert (P1 : positive troposphere) by apply troposphere_positive.
  assert (P2 : positive tropopause)
    by (apply next_layer_positive; [assumption | lra | rewrite T1; lra]).
  assert (P3 : positive stratosphere_lower)
    by (apply next_layer_positive; [assumption | lra | rewrite T2; lra]).
  assert (P4 : positive stratosphere_upper)
    by (apply next_layer_positive; [assumption | lra | rewrite T3; lra]).
  assert (P5 : positive stratopause)
    by (apply next_layer_positive; [assumption | lra | rewrite T4; lra]).
  assert (P6 : positive mesosphere_lower)
    by (apply next_layer_positive; [assumption | lra | rewrite T5; lra]).
  assert (P7 : positive mesosphere_upper)
    by (apply next_layer_positive; [assumption | lra | rewrite T6; lra]).
  unfold standard_layers. repeat (apply Forall_cons; [assumption |]). apply Forall_nil.
Qed.

Lemma standard_layers_gas_const :
  Forall (fun l => gas_const l = default_gas_const) standard_layers.
Proof. repeat constructor. Qed.

Lemma standard_config_layers : ISAModel.standard_config = Ok standard_layers.
Proof.
  pose proof standard_layers_positive as HP.
  pose proof default_gas_const_pos as HG.
  unfold standard_layers in HP.
  repeat match type of HP with
         | Forall _ (_ :: _) =>
             let H := fresh "P" in
             apply Forall_cons_iff in HP as [H HP]
         end.
  unfold ISAModel.standard_config.
  unfold ISAModel.add_layer at 1. rewrite !or_else_some by lra. cbn [bind].
  change (ISAModel.empty ++ [init (ISAModel.fresh_oid ISAModel.empty) 11.019 (-6.5)
                               (273.15 + 19.0) 101325 default_gas_const])
    with [troposphere].
  rewrite (add_layer_omitted _ troposphere) by (reflexivity || assumption || (cbn; lra)).
  cbn [bind].
  rewrite (add_layer_omitted _ tropopause) by (reflexivity || assumption || (cbn; lra)).
  cbn [bind].
  rewrite (add_layer_omitted _ stratosphere_lower)
    by (reflexivity || assumption || (cbn; lra)).
  cbn [bind].
  rewrite (add_layer_omitted _ stratosphere_upper)
    by (reflexivity || assumption || (cbn; lra)).
  cbn [bind].
  rewrite (add_layer_omitted _ stratopause) by (reflexivity || assumption || (cbn; lra)).
  cbn [bind].
  rewrite (add_layer_omitted _ mesosphere_lower)
    by (reflexivity || assumption || (cbn; lra)).
  cbn [bind]. reflexivity.
Qed.

End Construction.

Section ConstructionTheorems.

Import ISALayer.

Lemma standard_layers_gas_nonzero :
  Forall (fun l => gas_const l <> 0) standard_layers.
Proof.
  eapply Forall_impl; [| apply standard_layers_gas_const].
  intros l ->. apply Rgt_not_eq, default_gas_const_pos.
Qed.

Lemma standard_layers_gas_pos :
  Forall (fun l => 0 < gas_const l) standard_layers.
Proof.
  eapply Forall_impl; [| apply standard_layers_gas_const].
  intros l ->. apply default_gas_const_pos.
Qed.

Lemma model_boundary_queries_witness :
  ISAModel.get_temperature_by_altitude standard_layers 0 = Ok (tbot troposphere) /\
  ISAModel.get_pressure_by_altitude standard_layers 0 = Ok (base_press troposphere) /\
  ISAModel.get_temperature_by_altitude standard_layers (ISAModel.height standard_layers)
    = Ok (ttop mesosphere_upper) /\
  ISAModel.get_pressure_by_altitude standard_layers (ISAModel.height standard_layers)
    = Ok (top_pressure mesosphere_upper) /\
  ISAModel.get_temperature_by_altitude standard_layers (ISAModel.height standard_layers + 1)
    = Raise (ValueError outside_of_the_atmosphere) /\
  ISAModel.get_pressure_by_altitude standard_layers (ISAModel.height standard_layers + 1)
    = Raise (ValueError outside_of_the_atmosphere).
Proof.
  apply (model_boundary_queries standard_layers troposphere mesosphere_upper
           (tl standard_layers)).
  - reflexivity.
  - reflexivity.
  - apply standard_layers_positive.
  - apply standard_layers_gas_nonzero.
Defined.

(** A successful temperature query at the top of a layer returns its
    top temperature. *)
Lemma temperature_at_top_inv (l : t) (T : R) :
  get_temperature_by_altitude l (height l) = Ok T -> T = ttop l.
Proof.
  unfold get_temperature_by_altitude.
  destruct (Py.leb (- slack) (height l) && Py.leb (height l) (height l + slack));
    [| discriminate].
  destruct (Py.truediv (height l) (height l)) as [q |] eqn:E; [| discriminate].
  apply truediv_inv in E as [Hh ->]. cbn [bind]. intros H. inversion H. field. assumption.
Qed.

Lemma next_layer_boundary (id : nat) (lo : t) (h lr : R) :
  positive lo -> gas_const lo <> 0 -> positive (next_layer id lo h lr) ->
  boundary_agrees lo (next_layer id lo h lr).
Proof.
  intros Hlo Hg Hhi. exists (ttop lo), (top_pressure lo). repeat split.
  - apply temperature_at_top, Hlo.
  - apply (temperature_at_bottom (next_layer id lo h lr)), Hhi.
  - apply pressure_at_top; assumption.
  - apply (pressure_at_bottom (next_layer id lo h lr)); [assumption |].
    rewrite next_layer_gas_const. apply Rgt_not_eq, default_gas_const_pos.
Qed.

(** C5: [add_layer] with both base values omitted succeeds exactly when
    the model has a last layer whose temperature and pressure at its own
    height can be computed; the layer it appends then has that
    temperature, which is the last layer's top temperature, as base
    temperature and that pressure as base pressure.  The standard
    configuration is built this way, and at each of its six internal
    boundaries the layer below, queried at its top, and the layer above,
    queried at its bottom, return the same temperature and the same
    pressure. *)
Theorem add_layer_continuity :
  (forall (m m' : ISAModel.t) (h lr : R),
     ISAModel.add_layer m h lr None None = Ok m' <->
     exists l T P,
       ISAModel.last_layer m = Ok l /\
       get_temperature_by_altitude l (height l) = Ok T /\
       get_pressure_by_altitude l (height l) = Ok P /\
       T = ttop l /\
       m' = m ++ [init (ISAModel.fresh_oid m) h lr T P default_gas_const]) /\
  (exists std,
     ISAModel.standard_config = Ok std /\
     length std = 7%nat /\
     adjacent boundary_agrees std).
Proof.
  split.
  - intros m m' h lr. unfold ISAModel.add_layer. rewrite !or_else_none. split.
    + destruct (ISAModel.last_layer m) as [l |]; [| discriminate]. cbn [bind].
      destruct (get_temperature_by_altitude l (height l)) as [T |] eqn:ET;
        [| discriminate]. cbn [bind].
      destruct (get_pressure_by_altitude l (height l)) as [P |] eqn:EP;
        [| discriminate]. cbn [bind].
      intros H. inversion H. exists l, T, P.
      split; [reflexivity |]. split; [exact ET |]. split; [exact EP |].
      split; [apply temperature_at_top_inv, ET | reflexivity].
    + intros (l & T & P & Hl & HT & HP & _ & ->).
      rewrite Hl. cbn [bind]. rewrite HT. cbn [bind]. rewrite HP. reflexivity.
  - exists standard_layers. split; [apply standard_config_layers |].
    split; [reflexivity |].
    pose proof standard_layers_positive as HP.
    pose proof default_gas_const_pos as HG.
    unfold standard_layers in *.
    repeat match type of HP with
           | Forall _ (_ :: _) =>
               let H := fresh "P" in
               apply Forall_cons_iff in HP as [H HP]
           end.
    cbn [adjacent].
    repeat split; apply next_layer_boundary; try assumption; cbn; lra.
Qed.

(** C9: the standard configuration is built without error; its
    temperature at altitude 0 is exactly 292.15 and its pressure at
    altitude 0 is exactly 101325. *)
Theorem standard_sea_level :
  exists std,
    ISAModel.standard_config = Ok std /\
    ISAModel.get_temperature_by_altitude std 0 = Ok 292.15 /\
    ISAModel.get_pressure_by_altitude std 0 = Ok 101325.
Proof.
  exists standard_layers. split; [apply standard_config_layers |].
  pose proof troposphere_positive as HP.
  unfold ISAModel.get_temperature_by_altitude, ISAModel.get_pressure_by_altitude,
    standard_layers.
  rewrite get_layer_at_zero by apply HP. cbn [bind]. split.
  - rewrite temperature_at_bottom by apply HP. f_equal. cbn. lra.
  - rewrite pressure_at_bottom; [reflexivity | assumption |].
    cbn. apply Rgt_not_eq, default_gas_const_pos.
Qed.

End ConstructionTheorems.

(** ** Locating a layer by pressure *)

Section LocatePressure.

Import ISALayer.

Lemma top_of_fun (l : t) (p q : R) : top_of l p -> top_of l q -> p = q.
Proof. unfold top_of. intros H1 H2. rewrite H1 in H2. now inversion H2. Qed.

Lemma by_pressure_here (l : t) (rest : list t) (p q : R) :
  top_of l p -> p <= q -> ISAModel._get_layer_by_pressure (l :: rest) q = Ok l.
Proof.
  intros Ht Hle. cbn. rewrite Ht. cbn [bind].
  apply geb_true in Hle. rewrite Hle. reflexivity.
Qed.

Lemma by_pressure_skip (l : t) (rest : list t) (p q : R) :
  top_of l p -> q < p ->
  ISAModel._get_layer_by_pressure (l :: rest) q = ISAModel._get_layer_by_pressure rest q.
Proof.
  intros Ht Hlt. cbn. rewrite Ht. cbn [bind].
  apply geb_false in Hlt. rewrite Hlt. reflexivity.
Qed.

Lemma by_pressure_first_intro (pre post : list t) (l : t) (q : R) :
  Forall (skipped q) pre -> matched q l ->
  ISAModel._get_layer_by_pressure (pre ++ l :: post) q = Ok l.
Proof.
  intros Hpre [p [Ht Hle]]. induction Hpre as [| l' pre [p' [Ht' Hlt]] _ IH]; cbn [app].
  - eapply by_pressure_here; eassumption.
  - rewrite (by_pressure_skip _ _ _ _ Ht' Hlt). exact IH.
Qed.

Lemma by_pressure_first_elim (m : list t) (l : t) (q : R) :
  ISAModel._get_layer_by_pressure m q = Ok l ->
  exists pre post, m = pre ++ l :: post /\ Forall (skipped q) pre /\ matched q l.
Proof.
  induction m as [| l' m IH]; cbn; [discriminate |].
  destruct (get_pressure_by_altitude l' (height l')) as [p |] eqn:E; [| discriminate].
  cbn [bind]. destruct (Py.geb q p) eqn:G.
  - intros H. inversion H; subst. apply geb_true in G.
    exists [], m. repeat split; [constructor |]. exists p. auto.
  - intros H. apply geb_false in G. destruct (IH H) as (pre & post & -> & Hpre & Hl).
    exists (l' :: pre), post. repeat split; [| assumption].
    constructor; [exists p; auto | assumption].
Qed.

Lemma by_pressure_none (m : list t) (q : R) :
  Forall (skipped q) m ->
  ISAModel._get_layer_by_pressure m q = Raise (ValueError pressure_outside_of_atmosphere).
Proof.
  induction 1 as [| l m [p [Ht Hlt]] _ IH]; [reflexivity |].
  rewrite (by_pressure_skip _ _ _ _ Ht Hlt). exact IH.
Qed.

Lemma top_in (m : list t) (ps : list R) (l : t) (p : R) :
  Forall2 top_of m ps -> In l m -> top_of l p -> In p ps.
Proof.
  induction 1 as [| l' p' m ps Hl' _ IH]; cbn; [tauto |].
  intros [-> | Hin] Ht.
  - left. eapply top_of_fun; eassumption.
  - right. auto.
Qed.

(** With strictly decreasing top pressures, the top pressure of a layer
    selects that very layer. *)
Lemma by_pressure_at_top (pre post : list t) (l : t) (ps : list R) (p : R) :
  Forall2 top_of (pre ++ l :: post) ps -> StronglySorted Rgt ps -> top_of l p ->
  ISAModel._get_layer_by_pressure (pre ++ l :: post) p = Ok l.
Proof.
  revert ps. induction pre as [| l' pre IH]; intros ps H2 Hs Ht; cbn [app] in *.
  - eapply by_pressure_here; [eassumption | lra].
  - inversion H2 as [| ? p' ? ps' Hl' H2']; subst.
    inversion Hs as [| ? ? Hs' Hall]; subst.
    assert (Hin : In p ps').
    { eapply top_in; [eassumption | | eassumption]. apply in_or_app. right. now left. }
    rewrite Forall_forall in Hall. specialize (Hall p Hin). unfold Rgt in Hall.
    rewrite (by_pressure_skip _ _ _ _ Hl' Hall). eapply IH; eassumption.
Qed.

Lemma Rgt_trans' : Relations_1.Transitive Rgt.
Proof. intros x y z. unfold Rgt. lra. Qed.

(** C8: in a model whose top pressures can all be computed and fall
    strictly from the bottom layer to the top one,
    [_get_layer_by_pressure] returns a layer exactly when that layer is
    the first one, counted from the bottom, whose top pressure is at
    most the query pressure; and a query equal to the top pressure of a
    layer [lo] that has a layer [hi] above it (the pressure at their
    boundary) returns [lo], the lower of the two. *)
Theorem locate_by_pressure_first (m : ISAModel.t) (ps : list R) :
  Forall2 top_of m ps -> Sorted Rgt ps ->
  (forall (q : R) (l : t),
     ISAModel._get_layer_by_pressure m q = Ok l <->
     exists pre post,
       m = pre ++ l :: post /\
       Forall (fun l' => exists p, top_of l' p /\ q < p) pre /\
       exists p, top_of l p /\ p <= q) /\
  (forall (pre post : list t) (lo hi : t) (p : R),
     m = pre ++ lo :: hi :: post -> top_of lo p ->
     ISAModel._get_layer_by_pressure m p = Ok lo).
Proof.
  intros H2 Hs. split.
  - intros q l. split.
    + apply by_pressure_first_elim.
    + intros (pre & post & -> & Hpre & Hl). apply by_pressure_first_intro; assumption.
  - intros pre post lo hi p -> Ht.
    eapply by_pressure_at_top; [eassumption | | assumption].
    apply Sorted_StronglySorted; [exact Rgt_trans' | assumption].
Qed.

End LocatePressure.

(** ** Contiguous stacks of layers *)

Section Contiguous.

Import ISALayer.

Lemma top_below_base (l : t) :
  positive l -> 0 < gas_const l -> top_pressure l < base_press l.
Proof.
  intros Hl Hg. rewrite <- (pressure_at_zero l). unfold top_pressure.
  apply pressure_at_decr; try assumption; [lra | apply Hl].
Qed.

Lemma pressure_at_above_top (l : t) (x : R) :
  positive l -> 0 < gas_const l -> 0 <= x <= height l ->
  top_pressure l <= pressure_at l x.
Proof.
  intros Hl Hg [H0 [Hlt | ->]].
  - left. apply pressure_at_decr; assumption.
  - right. reflexivity.
Qed.

Lemma pressure_at_below_base (l : t) (x : R) :
  positive l -> 0 < gas_const l -> 0 <= x ->
  pressure_at l x <= base_press l /\ (0 < x -> pressure_at l x < base_press l).
Proof.
  intros Hl Hg Hx. rewrite <- (pressure_at_zero l) at 1 2. split.
  - destruct Hx as [Hx | <-]; [left; apply pressure_at_decr; (assumption || lra) | right; reflexivity].
  - intros Hx'. apply pressure_at_decr; (assumption || lra).
Qed.

Lemma well_formed_cons (l : t) (rest : list t) :
  well_formed (l :: rest) ->
  positive l /\ 0 < gas_const l /\ well_formed rest /\
  match rest with
  | [] => True
  | l' :: _ => base_press l' = top_pressure l
  end.
Proof.
  intros [Hp Hg Hc]. inversion Hp; inversion Hg; subst.
  split; [assumption |]. split; [assumption |]. split.
  - constructor; try assumption.
    destruct rest as [| l' rest]; [exact I | apply Hc].
  - destruct rest as [| l' rest]; [exact I | apply Hc].
Qed.

Lemma well_formed_heights (m : list t) :
  well_formed m -> Forall (fun l => 0 < height l) m.
Proof. intros [Hp _ _]. apply positive_heights, Hp. Qed.

Lemma well_formed_tops (m : list t) :
  well_formed m -> Forall (fun l => top_of l (top_pressure l)) m.
Proof.
  intros [Hp Hg _]. rewrite Forall_forall in *. intros l Hin.
  apply pressure_at_top; [auto |]. apply Rgt_not_eq, Hg, Hin.
Qed.

(** Every layer of a well-formed stack tops out below the top of the
    bottom layer. *)
Lemma tops_below_first (l : t) (rest : list t) :
  well_formed (l :: rest) ->
  Forall (fun l' => top_pressure l' < top_pressure l) rest.
Proof.
  revert l. induction rest as [| l' rest IH]; intros l Hwf; [constructor |].
  destruct (well_formed_cons _ _ Hwf) as (Hl & Hg & Hwf' & Hb).
  destruct (well_formed_cons _ _ Hwf') as (Hl' & Hg' & _ & _).
  assert (Hlt : top_pressure l' < top_pressure l)
    by (rewrite <- Hb; apply top_below_base; assumption).
  constructor; [assumption |].
  eapply Forall_impl; [| apply IH, Hwf']. cbn. intros; lra.
Qed.

Lemma well_formed_sorted (m : list t) :
  well_formed m -> StronglySorted Rgt (map top_pressure m).
Proof.
  induction m as [| l m IH]; intros Hwf; cbn; constructor.
  - apply IH. apply (well_formed_cons _ _ Hwf).
  - rewrite Forall_map. eapply Forall_impl; [| apply tops_below_first, Hwf].
    cbn. intros. unfold Rgt. assumption.
Qed.

(** The layers below a layer of a well-formed stack top out at or above
    its base pressure. *)
Lemma tops_above_base (pre post : list t) (l : t) :
  well_formed (pre ++ l :: post) ->
  Forall (fun l' => base_press l <= top_pressure l') pre.
Proof.
  induction pre as [| l' pre IH]; intros Hwf; [constructor |].
  cbn [app] in Hwf. destruct (well_formed_cons _ _ Hwf) as (Hl' & Hg' & Hwf' & Hb).
  specialize (IH Hwf'). constructor; [| assumption].
  destruct pre as [| l'' pre]; cbn [app] in *.
  - rewrite Hb. lra.
  - inversion IH; subst.
    destruct (well_formed_cons _ _ Hwf') as (Hl'' & Hg'' & _ & _).
    pose proof (top_below_base l'' Hl'' Hg''). lra.
Qed.

Lemma well_formed_app_r (pre m : list t) : well_formed (pre ++ m) -> well_formed m.
Proof.
  induction pre as [| l pre IH]; intros H; [assumption |].
  apply IH. apply (well_formed_cons _ _ H).
Qed.

Lemma adjacent_snoc (P : t -> t -> Prop) (pre : list t) (l new : t) :
  adjacent P (pre ++ [l]) -> P l new -> adjacent P (pre ++ [l; new]).
Proof.
  intros Hadj Hnew. induction pre as [| x pre IH]; cbn [app] in *.
  - cbn. auto.
  - destruct pre as [| y pre]; cbn [app] in *; cbn [adjacent] in *;
      (split; [apply Hadj | apply IH, Hadj]).
Qed.

(** X6: [add_layer] with omitted base values keeps a stack well-formed,
    as long as the new height and the new top temperature are positive:
    it succeeds, and the model it returns is well-formed again. *)
Lemma add_layer_well_formed (m : ISAModel.t) (l : t) (h lr : R) :
  well_formed m -> ISAModel.last_layer m = Ok l ->
  0 < h -> 0 < ttop l + lr * h ->
  exists m', ISAModel.add_layer m h lr None None = Ok m' /\ well_formed m'.
Proof.
  intros Hwf Hlast Hh Ht.
  destruct (last_layer_inv m l Hlast) as [pre ->].
  destruct (well_formed_cons _ _ (well_formed_app_r pre [l] Hwf)) as (Hl & Hg & _ & _).
  eexists. split; [apply add_layer_omitted; [eassumption | assumption | lra] |].
  destruct Hwf as [Hp Hgs Hc]. rewrite <- app_assoc. cbn [app]. constructor.
  - apply Forall_app in Hp as [Hp _]. apply Forall_app. split; [assumption |].
    apply Forall_cons; [assumption |].
    apply Forall_cons; [apply next_layer_positive; assumption | apply Forall_nil].
  - apply Forall_app in Hgs as [Hgs _]. apply Forall_app. split; [assumption |].
    apply Forall_cons; [assumption |].
    apply Forall_cons; [apply default_gas_const_pos | apply Forall_nil].
  - apply adjacent_snoc; [assumption | reflexivity].
Qed.

Lemma standard_layers_well_formed : well_formed standard_layers.
Proof.
  constructor.
  - apply standard_layers_positive.
  - apply standard_layers_gas_pos.
  - cbn. repeat split; reflexivity.
Qed.

End Contiguous.

(** ** Pressure along the altitude axis *)

Section PressureProfile.

Import ISALayer.

Lemma well_formed_Forall2_tops (m : list t) :
  well_formed m -> Forall2 top_of m (map top_pressure m).
Proof.
  intros H. apply well_formed_tops in H.
  induction H; cbn; constructor; assumption.
Qed.

Lemma locate_by_pressure_first_witness :
  ISAModel._get_layer_by_pressure standard_layers (top_pressure troposphere)
  = Ok troposphere.
Proof.
  apply (proj2 (locate_by_pressure_first standard_layers
                  (map top_pressure standard_layers)
                  (well_formed_Forall2_tops _ standard_layers_well_formed)
                  (StronglySorted_Sorted
                     (well_formed_sorted _ standard_layers_well_formed)))
           [] (tl (tl standard_layers)) troposphere tropopause).
  - reflexivity.
  - apply pressure_at_top; [apply troposphere_positive |].
    apply Rgt_not_eq, default_gas_const_pos.
Defined.












End PressureProfile.

(** ** Queries outside the model *)

Section OutOfRange.

Import ISALayer.

Lemma ne_same (l : t) : ne l l = false.
Proof. unfold ne. rewrite Nat.eqb_refl. reflexivity. Qed.

Lemma pressure_below_all_tops (m : ISAModel.t) (q : R) :
  Forall positive m -> Forall (fun l => 0 < gas_const l) m ->
  (forall l, In l m -> q < top_pressure l) ->
  ISAModel._get_layer_by_pressure m q = Raise (ValueError pressure_outside_of_atmosphere).
Proof.
  intros Hp Hg Hq. apply by_pressure_none.
  rewrite Forall_forall in *. intros l Hin. exists (top_pressure l).
  split; [| auto]. apply pressure_at_top; [auto |]. apply Rgt_not_eq, Hg, Hin.
Qed.

(** In a well-formed stack no layer tops out below the last one. *)
Lemma tops_above_last (pre : list t) (lN : t) :
  well_formed (pre ++ [lN]) ->
  forall l, In l (pre ++ [lN]) -> top_pressure lN <= top_pressure l.
Proof.
  induction pre as [| l' pre IH]; intros Hwf l Hin; cbn [app] in *.
  - destruct Hin as [<- | []]. lra.
  - destruct Hin as [<- | Hin].
    + pose proof (tops_below_first _ _ Hwf) as Hall.
      rewrite Forall_forall in Hall. left. apply Hall.
      apply in_or_app. right. now left.
    + apply IH; [| assumption]. apply (well_formed_cons _ _ Hwf).
Qed.

Lemma temperature_below_bottom (l0 : t) (rest : list t) (a : R) :
  0 < height l0 -> a < - slack ->
  ISAModel.get_temperature_by_altitude (l0 :: rest) a = Raise AssertionError.
Proof.
  intros Hh Ha. pose proof slack_pos.
  unfold ISAModel.get_temperature_by_altitude, ISAModel._get_layer_by_altitude.
  rewrite locate_here by lra. cbn [bind].
  apply get_temperature_by_altitude_assert. left. lra.
Qed.

(** Below altitude 0 the pressure query extrapolates the bottom layer. *)
Lemma pressure_below_bottom (l0 : t) (rest : list t) (a : R) :
  positive l0 -> 0 < gas_const l0 -> a < 0 -> 0 < frac_at l0 a ->
  ISAModel.get_pressure_by_altitude (l0 :: rest) a = Ok (pressure_at l0 a) /\
  base_press l0 < pressure_at l0 a.
Proof.
  intros Hl Hg Ha Hf. pose proof (denom_pos l0 Hl) as Hd. split.
  - unfold ISAModel.get_pressure_by_altitude, ISAModel._get_layer_by_altitude.
    rewrite locate_here by (destruct Hl; lra). cbn [bind].
    replace (a - (0.0 + height l0) + height l0) with a by lra.
    apply get_pressure_by_altitude_value; try lra. destruct Hl. nra.
  - assert (Hlt : frac_at l0 a < 1)
      by (rewrite <- (frac_at_zero l0); apply frac_at_incr; assumption).
    pose proof (Rpower_neg_exp_decr _ _ _ Hf Hlt (exponent_neg l0 Hl Hg)) as H.
    rewrite Rpower_one_base in H. unfold pressure_at. destruct Hl. nra.
Qed.

(** Above the base pressure of the bottom layer the altitude query
    extrapolates to a negative altitude, and the temperature query
    fails once that altitude is below the slack of the assertion. *)
Lemma altitude_above_base (l0 : t) (rest : list t) (q : R) :
  positive l0 -> 0 < gas_const l0 -> base_press l0 < q ->
  exists alt,
    ISAModel.get_altitude_by_pressure (l0 :: rest) q = Ok alt /\ alt < 0 /\
    (alt < - slack ->
     ISAModel.get_temperature_by_pressure (l0 :: rest) q = Raise AssertionError).
Proof.
  intros Hl Hg Hq.
  destruct (get_altitude_by_pressure_above_base l0 q Hl Hg Hq) as (alt & Halt & Hneg).
  assert (Hloc : ISAModel._get_layer_by_pressure (l0 :: rest) q = Ok l0).
  { apply by_pressure_here with (top_pressure l0).
    - apply pressure_at_top; [assumption | lra].
    - pose proof (top_below_base l0 Hl Hg). lra. }
  exists alt. repeat split; [| assumption |].
  - unfold ISAModel.get_altitude_by_pressure. rewrite Hloc. cbn [bind].
    rewrite Halt. cbn [bind ISAModel.add_heights_below]. rewrite ne_same. reflexivity.
  - intros Hs. unfold ISAModel.get_temperature_by_pressure. rewrite Hloc. cbn [bind].
    unfold get_temperature_by_pressure. rewrite Halt. cbn [bind].
    apply get_temperature_by_altitude_assert. now left.
Qed.

Lemma troposphere_frac_below : 0 < frac_at troposphere (-1).
Proof.
  unfold frac_at, troposphere, init. cbn [ttop tbot height].
  assert (H : 0 < (273.15 + 19.0) ^ 2 * 11.019) by nra.
  assert (Hd : ((273.15 + 19.0) + -6.5 * 11.019) / ((273.15 + 19.0) ^ 2 * 11.019) < 1).
  { apply Rmult_lt_reg_r with ((273.15 + 19.0) ^ 2 * 11.019); [assumption |].
    unfold Rdiv. rewrite Rmult_assoc, Rinv_l by lra. nra. }
  unfold Rdiv in *. nra.
Qed.

(** C2: there is no range check below the model.  On the standard
    configuration the out-of-range altitude [-1] is rejected by the
    temperature query, through the assertion of the layer, while the
    pressure query on the same altitude returns a pressure, one above the
    sea-level pressure 101325; and the altitude query at pressure 200000,
    above the base pressure of the bottom layer, returns a negative
    altitude. *)
Theorem standard_queries_extrapolate :
  exists std p alt,
    ISAModel.standard_config = Ok std /\
    ISAModel.get_temperature_by_altitude std (-1) = Raise AssertionError /\
    ISAModel.get_pressure_by_altitude std (-1) = Ok p /\ 101325 < p /\
    ISAModel.get_altitude_by_pressure std 200000 = Ok alt /\ alt < 0.
Proof.
  pose proof troposphere_positive as HP.
  assert (HG : 0 < gas_const troposphere) by apply default_gas_const_pos.
  destruct (pressure_below_bottom troposphere (tl standard_layers) (-1) HP HG)
    as [Hp Hlt]; [lra | apply troposphere_frac_below |].
  destruct (altitude_above_base troposphere (tl standard_layers) 200000 HP HG)
    as (alt & Halt & Hneg & _); [cbn; lra |].
  exists standard_layers, (pressure_at troposphere (-1)), alt.
  split; [apply standard_config_layers |].
  split.
  { apply (temperature_below_bottom troposphere (tl standard_layers) (-1));
      [apply HP | unfold slack; lra]. }
  split; [exact Hp |]. split; [exact Hlt |]. split; assumption.
Qed.

End OutOfRange.

(** ** Round trip through the model *)

Section ModelRoundTrip.

Import ISALayer.

(** The layer found for an altitude of the domain, with the layers
    below it: the local altitude is what remains above them, and it is
    positive unless the layer is the bottom one. *)
Lemma locate_split (m : list t) (acc a : R) :
  Forall (fun l => 0 < height l) m -> m <> [] ->
  acc <= a <= acc + ISAModel.height m ->
  exists pre l post,
    m = pre ++ l :: post /\
    ISAModel.layer_by_altitude_from m acc a = Ok (l, a - acc - ISAModel.height pre) /\
    0 <= a - acc - ISAModel.height pre <= height l /\
    (pre <> [] -> 0 < a - acc - ISAModel.height pre).
Proof.
  intros Hh. revert acc. induction Hh as [| l rest Hl Hrest IH]; intros acc Hne [H1 H2];
    [contradiction |].
  rewrite height_cons in H2.
  assert (Hnil : ISAModel.height [] = 0) by reflexivity.
  destruct (Rle_lt_dec a (acc + height l)) as [Hin | Hout].
  - exists [], l, rest. rewrite Hnil. split; [reflexivity |]. split.
    + rewrite locate_here by assumption. do 2 f_equal. ring.
    + split; [lra | intros H; contradiction].
  - assert (Hrne : rest <> []) by (intros ->; rewrite Hnil in H2; lra).
    destruct (IH (acc + height l) Hrne) as (pre & l' & post & -> & Hloc & Hx & Hs);
      [lra |].
    exists (l :: pre), l', post. rewrite height_cons. split; [reflexivity |].
    replace (a - acc - (height l + ISAModel.height pre))
      with (a - (acc + height l) - ISAModel.height pre) by ring.
    split; [rewrite locate_next by assumption; exact Hloc |].
    split; [assumption |]. intros _.
    destruct pre as [| l'' pre]; [rewrite Hnil; lra | apply Hs; discriminate].
Qed.

Lemma add_heights_below_split (pre post : list t) (l : t) (alt : R) :
  Forall (fun l' => oid l' <> oid l) pre ->
  ISAModel.add_heights_below (pre ++ l :: post) l alt = alt + ISAModel.height pre.
Proof.
  intros Hpre. revert alt. induction Hpre as [| l' pre Hl' _ IH]; intros alt; cbn [app].
  - cbn. rewrite ne_same. unfold ISAModel.height. cbn. ring.
  - cbn [ISAModel.add_heights_below]. unfold ne at 1.
    apply Nat.eqb_neq in Hl'. rewrite Hl'. cbn [negb].
    rewrite IH, height_cons. ring.
Qed.




Lemma standard_layers_objects : one_state_per_object standard_layers.
Proof.
  intros l1 l2 H1 H2 Hid. cbn in H1, H2.
  repeat match goal with
         | H : _ \/ _ |- _ => destruct H as [H | H]
         | H : False |- _ => destruct H
         end; subst; try reflexivity; cbn in Hid; discriminate.
Qed.

End ModelRoundTrip.

(** ** More about one layer *)

Section LayerInverse.

Import ISALayer.

Lemma get_altitude_by_pressure_value (l : t) (p : R) :
  positive l -> 0 < p -> get_altitude_by_pressure l p = Ok (altitude_at l p).
Proof.
  intros Hl Hp. pose proof (denom_pos l Hl) as Hd. pose proof grav_const_pos as HG.
  destruct Hl as [Hh Hb Ht Hbp].
  assert (Hgth : grav_const * tbot l * height l <> 0)
    by (apply Rgt_not_eq, Rmult_lt_0_compat; [apply Rmult_lt_0_compat |]; assumption).
  unfold get_altitude_by_pressure, altitude_at.
  rewrite truediv_ok by lra. cbn [bind].
  rewrite truediv_ok by assumption. cbn [bind].
  rewrite truediv_ok by lra. cbn [bind].
  rewrite math_pow_pos by (apply Rdiv_lt_0_compat; assumption). reflexivity.
Qed.

Lemma frac_at_altitude_at (l : t) (p : R) :
  positive l ->
  frac_at l (altitude_at l p)
  = Rpower (base_press l / p)
      (gas_const l * ttop l / (grav_const * tbot l * height l)).
Proof.
  intros Hl. pose proof (denom_pos l Hl) as Hd. destruct Hl as [Hh Hb Ht Hbp].
  unfold frac_at, altitude_at. field. repeat split; lra.
Qed.

Lemma pressure_at_altitude_at (l : t) (p : R) :
  positive l -> gas_const l <> 0 -> 0 < p -> pressure_at l (altitude_at l p) = p.
Proof.
  intros Hl Hg Hp. pose proof grav_const_pos as HG.
  unfold pressure_at. rewrite frac_at_altitude_at by assumption.
  destruct Hl as [Hh Hb Ht Hbp].
  assert (Hr : 0 < base_press l / p) by (apply Rdiv_lt_0_compat; assumption).
  rewrite Rpower_mult.
  replace (gas_const l * ttop l / (grav_const * tbot l * height l) * exponent l)
    with (- (1)) by (unfold exponent; field; repeat split; lra).
  rewrite Rpower_Ropp, Rpower_1 by assumption. field. split; lra.
Qed.

Lemma altitude_at_nonneg (l : t) (p : R) :
  positive l -> 0 < gas_const l -> 0 < p -> p <= base_press l ->
  0 <= altitude_at l p /\ (p < base_press l -> 0 < altitude_at l p).
Proof.
  intros Hl Hg Hp Hle. pose proof (denom_pos l Hl) as Hd. pose proof grav_const_pos as HG.
  destruct Hl as [Hh Hb Ht Hbp].
  assert (Hco : 0 < tbot l ^ 2 * height l / ttop l) by (apply Rdiv_lt_0_compat; assumption).
  assert (He : 0 < gas_const l * ttop l / (grav_const * tbot l * height l)).
  { apply Rdiv_lt_0_compat; [apply Rmult_lt_0_compat; assumption |].
    apply Rmult_lt_0_compat; [apply Rmult_lt_0_compat |]; assumption. }
  assert (Hstrict : p < base_press l -> 0 < altitude_at l p).
  { intros Hlt. unfold altitude_at.
    assert (Hr : 1 < base_press l / p).
    { apply Rmult_lt_reg_r with p; [assumption |]. unfold Rdiv.
      rewrite Rmult_assoc, Rinv_l; lra. }
    pose proof (Rpower_pos_exp_incr 1 (base_press l / p) _ Rlt_0_1 Hr He) as H.
    rewrite Rpower_one_base in H. apply Rmult_lt_0_compat; lra. }
  split; [| assumption].
  destruct Hle as [Hlt | ->]; [left; auto |].
  unfold altitude_at. replace (base_press l / base_press l) with 1 by (field; lra).
  rewrite Rpower_one_base. lra.
Qed.

Lemma altitude_at_le_height (l : t) (p : R) :
  positive l -> 0 < gas_const l -> top_pressure l <= p -> p <= base_press l ->
  altitude_at l p <= height l.
Proof.
  intros Hl Hg Htop Hle.
  assert (Hp : 0 < p) by (pose proof (pressure_at_pos l (height l) (pos_press l Hl));
                          unfold top_pressure in Htop; lra).
  destruct (Rle_lt_dec (altitude_at l p) (height l)) as [H | H]; [assumption |].
  pose proof (pressure_at_decr l (height l) (altitude_at l p) Hl Hg) as Hd.
  rewrite pressure_at_altitude_at in Hd by (assumption || lra).
  unfold top_pressure in Htop. destruct Hl as [Hh _ _ _].
  specialize (Hd (Rlt_le _ _ Hh) H). lra.
Qed.

(** X1: in a layer built by [__init__] with a non-zero height, the
    temperature at a local altitude inside the asserted range is the base
    temperature plus the lapse rate times the altitude. *)
Theorem layer_temperature_linear (id : nat) (h lr T bp gas a : R) :
  h <> 0 -> - slack <= a <= h + slack ->
  get_temperature_by_altitude (init id h lr T bp gas) a = Ok (T + lr * a).
Proof.
  intros Hh Ha. rewrite get_temperature_by_altitude_value by assumption.
  cbn [tbot ttop height init]. f_equal. field. assumption.
Qed.

Lemma layer_temperature_linear_witness :
  get_temperature_by_altitude (init 1 11.019 (-6.5) 292.15 101325 0.28704) 2
  = Ok (292.15 + -6.5 * 2).
Proof.
  apply (layer_temperature_linear 1 11.019 (-6.5) 292.15 101325 0.28704 2).
  - lra.
  - unfold slack. lra.
Defined.

Lemma altitude_at_pressure_at (l : t) (a : R) :
  positive l -> gas_const l <> 0 -> 0 < frac_at l a ->
  altitude_at l (pressure_at l a) = a.
Proof.
  intros Hl Hg Hf.
  pose proof (get_altitude_by_pressure_inverse l a Hl Hg Hf) as H1.
  rewrite get_altitude_by_pressure_value in H1
    by (assumption || apply pressure_at_pos, Hl).
  injection H1 as H1. exact H1.
Qed.

(** X2: on a layer with positive height, temperatures, base pressure
    and gas constant, for a pressure between the top pressure and the
    base pressure of the layer, [get_altitude_by_pressure] returns the
    closed form, which is not negative, [get_pressure_by_altitude] returns
    its closed form at that altitude, and the second closed form undoes
    the first: as real functions, the pressure at the altitude of [p] is
    [p]. *)
Theorem layer_pressure_of_altitude (l : t) (p : R) :
  positive l -> 0 < gas_const l -> top_pressure l <= p <= base_press l ->
  get_altitude_by_pressure l p = Ok (altitude_at l p) /\
  0 <= altitude_at l p /\
  get_pressure_by_altitude l (altitude_at l p) = Ok (pressure_at l (altitude_at l p)) /\
  pressure_at l (altitude_at l p) = p.
Proof.
  intros Hl Hg [Htop Hle].
  assert (Hp : 0 < p).
  { pose proof (pressure_at_pos l (height l) (pos_press l Hl)) as H.
    unfold top_pressure in Htop. lra. }
  destruct (altitude_at_nonneg l p Hl Hg Hp Hle) as [Hx0 _].
  split; [apply get_altitude_by_pressure_value; assumption |].
  split; [assumption |].
  split; [apply get_pressure_by_altitude_positive; (assumption || lra) |].
  apply pressure_at_altitude_at; (assumption || lra).
Qed.

Lemma layer_pressure_of_altitude_witness :
  get_altitude_by_pressure troposphere 101325 = Ok (altitude_at troposphere 101325) /\
  0 <= altitude_at troposphere 101325 /\
  get_pressure_by_altitude troposphere (altitude_at troposphere 101325)
    = Ok (pressure_at troposphere (altitude_at troposphere 101325)) /\
  pressure_at troposphere (altitude_at troposphere 101325) = 101325.
Proof.
  apply (layer_pressure_of_altitude troposphere 101325).
  - apply troposphere_positive.
  - apply default_gas_const_pos.
  - split; [| cbn; lra].
    left. apply (top_below_base troposphere troposphere_positive default_gas_const_pos).
Defined.

End LayerInverse.

(** ** More about building a model *)

Section AddLayer.

Import ISALayer.


Lemma or_else_zero (d : result R) : Py.or_else (Some 0) d = d.
Proof. cbn. destruct (Req_dec_T 0 0); [reflexivity | contradiction]. Qed.

(** X4: on a model without layers [add_layer] needs both base values:
    given two non-zero values it appends the first layer, with exactly
    these values, whatever the height and the lapse rate; when the base
    temperature or the base pressure is omitted or is zero, which the
    code treats as omitted, it raises [IndexError]. *)
Theorem add_layer_first (h lr : R) (base_temp base_press : option R) :
  (forall T P, base_temp = Some T -> T <> 0 -> base_press = Some P -> P <> 0 ->
     ISAModel.add_layer ISAModel.empty h lr base_temp base_press
     = Ok [init 1 h lr T P default_gas_const]) /\
  (base_temp = None \/ base_temp = Some 0 \/ base_press = None \/ base_press = Some 0 ->
     ISAModel.add_layer ISAModel.empty h lr base_temp base_press = Raise IndexError).
Proof.
  split.
  - intros T P -> HT -> HP. unfold ISAModel.add_layer.
    rewrite !or_else_some by assumption. reflexivity.
  - unfold ISAModel.add_layer.
    intros [-> | [-> | [-> | ->]]];
      rewrite ?or_else_none, ?or_else_zero; try reflexivity;
      destruct base_temp as [T |]; try reflexivity;
      cbn [Py.or_else]; destruct (Req_dec_T T 0); reflexivity.
Qed.

Lemma add_layer_first_witness :
  ISAModel.add_layer ISAModel.empty 1 0 None (Some 101325) = Raise IndexError.
Proof.
  apply (proj2 (add_layer_first 1 0 None (Some 101325))). left. reflexivity.
Defined.



Lemma troposphere_alone_well_formed : well_formed [troposphere].
Proof.
  constructor.
  - repeat constructor; cbn; lra.
  - repeat constructor. apply default_gas_const_pos.
  - exact I.
Qed.

Lemma add_layer_well_formed_witness :
  exists m',
    ISAModel.add_layer [troposphere] (20.063 - 11.019) 0.0 None None = Ok m' /\
    well_formed m'.
Proof.
  apply (add_layer_well_formed [troposphere] troposphere (20.063 - 11.019) 0.0).
  - apply troposphere_alone_well_formed.
  - reflexivity.
  - lra.
  - cbn. lra.
Defined.

End AddLayer.

(** ** The domain of the altitude queries *)

Section AltitudeDomain.

Import ISALayer.

(** Like [locate_split], without a lower bound on the altitude. *)
Lemma locate_le (m : list t) (acc a : R) :
  Forall (fun l => 0 < height l) m -> m <> [] ->
  a <= acc + ISAModel.height m ->
  exists pre l post,
    m = pre ++ l :: post /\
    ISAModel.layer_by_altitude_from m acc a = Ok (l, a - acc - ISAModel.height pre) /\
    a - acc - ISAModel.height pre <= height l /\
    (pre <> [] -> 0 < a - acc - ISAModel.height pre).
Proof.
  intros Hh. revert acc. induction Hh as [| l rest Hl Hrest IH]; intros acc Hne H2;
    [contradiction |].
  rewrite height_cons in H2.
  assert (Hnil : ISAModel.height [] = 0) by reflexivity.
  destruct (Rle_lt_dec a (acc + height l)) as [Hin | Hout].
  - exists [], l, rest. rewrite Hnil. split; [reflexivity |]. split.
    + rewrite locate_here by assumption. do 2 f_equal. ring.
    + split; [lra | intros H; contradiction].
  - assert (Hrne : rest <> []) by (intros ->; rewrite Hnil in H2; lra).
    destruct (IH (acc + height l) Hrne) as (pre & l' & post & -> & Hloc & Hx & Hs);
      [lra |].
    exists (l :: pre), l', post. rewrite height_cons. split; [reflexivity |].
    replace (a - acc - (height l + ISAModel.height pre))
      with (a - (acc + height l) - ISAModel.height pre) by ring.
    split; [rewrite locate_next by assumption; exact Hloc |].
    split; [assumption |]. intros _.
    destruct pre as [| l'' pre]; [rewrite Hnil; lra | apply Hs; discriminate].
Qed.

Lemma get_layer_le (m : ISAModel.t) (a : R) :
  Forall (fun l => 0 < height l) m -> m <> [] -> a <= ISAModel.height m ->
  exists pre l post,
    m = pre ++ l :: post /\
    ISAModel._get_layer_by_altitude m a = Ok (l, a - ISAModel.height pre) /\
    a - ISAModel.height pre <= height l /\
    (pre <> [] -> 0 < a - ISAModel.height pre).
Proof.
  intros Hh Hne Ha.
  destruct (locate_le m 0 a Hh Hne) as (pre & l & post & Hm & Hloc & Hx & Hs); [lra |].
  exists pre, l, post. unfold ISAModel._get_layer_by_altitude. rewrite float_zero.
  replace (a - ISAModel.height pre) with (a - 0 - ISAModel.height pre) by ring.
  auto.
Qed.

(** X7: on a model with at least one layer and positive heights,
    [_get_layer_by_altitude] raises its [ValueError] exactly when the
    altitude is above the total height; for every other altitude, negative
    ones included, it returns a layer of the model and the altitude less
    the heights of the layers below it, which is at most the height of the
    layer and is positive unless the layer is the bottom one. *)
Theorem get_layer_by_altitude_domain (m : ISAModel.t) (a : R) :
  m <> [] -> Forall (fun l => 0 < height l) m ->
  (ISAModel._get_layer_by_altitude m a = Raise (ValueError outside_of_the_atmosphere)
   <-> ISAModel.height m < a) /\
  (a <= ISAModel.height m ->
   exists pre l post,
     m = pre ++ l :: post /\
     ISAModel._get_layer_by_altitude m a = Ok (l, a - ISAModel.height pre) /\
     a - ISAModel.height pre <= height l /\
     (pre <> [] -> 0 < a - ISAModel.height pre)).
Proof.
  intros Hne Hh. split; [| apply get_layer_le; assumption].
  split.
  - intros Hraise. destruct (Rle_lt_dec a (ISAModel.height m)) as [Hle | Hlt];
      [| assumption].
    destruct (get_layer_le m a Hh Hne Hle) as (pre & l & post & _ & Hloc & _).
    rewrite Hloc in Hraise. discriminate.
  - apply get_layer_above. assumption.
Qed.

Lemma get_layer_by_altitude_domain_witness :
  (ISAModel._get_layer_by_altitude standard_layers 90
   = Raise (ValueError outside_of_the_atmosphere)
   <-> ISAModel.height standard_layers < 90).
Proof.
  apply (get_layer_by_altitude_domain standard_layers 90).
  - discriminate.
  - apply positive_heights, standard_layers_positive.
Defined.

(** X8: on a model with at least one layer and positive heights, the
    temperature query at an altitude in [[0, height]] returns the linear
    interpolation between the base and the top temperature of the layer
    that contains the altitude, taken at the altitude above the bottom of
    that layer; at an altitude above the total height it raises the
    out-of-atmosphere [ValueError]. *)
Theorem model_temperature_domain (m : ISAModel.t) (a : R) :
  m <> [] -> Forall (fun l => 0 < height l) m ->
  (0 <= a <= ISAModel.height m ->
   exists pre l post,
     m = pre ++ l :: post /\
     0 <= a - ISAModel.height pre <= height l /\
     ISAModel.get_temperature_by_altitude m a
     = Ok (tbot l + (ttop l - tbot l) * ((a - ISAModel.height pre) / height l))) /\
  (ISAModel.height m < a ->
   ISAModel.get_temperature_by_altitude m a
   = Raise (ValueError outside_of_the_atmosphere)).
Proof.
  intros Hne Hh. pose proof slack_pos as Hs0.
  unfold ISAModel.get_temperature_by_altitude. split.
  - intros [H0 H1].
    destruct (get_layer_le m a Hh Hne H1) as (pre & l & post & Hm & Hloc & Hx & Hs).
    assert (Hhl : 0 < height l).
    { rewrite Forall_forall in Hh. apply Hh. rewrite Hm. apply in_or_app. right. now left. }
    assert (Hx0 : 0 <= a - ISAModel.height pre).
    { destruct pre as [| l' pre']; [| specialize (Hs ltac:(discriminate)); lra].
      unfold ISAModel.height. cbn. lra. }
    exists pre, l, post. split; [assumption |]. split; [lra |].
    rewrite Hloc. cbn [bind]. apply get_temperature_by_altitude_value; lra.
  - intros Ha. rewrite get_layer_above by assumption. reflexivity.
Qed.

Lemma model_temperature_domain_witness :
  ISAModel.get_temperature_by_altitude standard_layers 90
  = Raise (ValueError outside_of_the_atmosphere).
Proof.
  apply (model_temperature_domain standard_layers 90).
  - discriminate.
  - apply positive_heights, standard_layers_positive.
  - unfold ISAModel.height. cbn. lra.
Defined.

End AltitudeDomain.

(** ** Altitude and pressure queries as inverse maps *)

Section ModelInverse.

Import ISALayer.

(** The layer found for an altitude of the domain is the layer found for
    the pressure at that altitude. *)
Lemma locate_agree (m : ISAModel.t) (a : R) :
  well_formed m -> m <> [] -> 0 <= a <= ISAModel.height m ->
  exists pre l post,
    m = pre ++ l :: post /\
    ISAModel._get_layer_by_altitude m a = Ok (l, a - ISAModel.height pre) /\
    0 <= a - ISAModel.height pre <= height l /\
    positive l /\ 0 < gas_const l /\
    ISAModel._get_layer_by_pressure m (pressure_at l (a - ISAModel.height pre)) = Ok l.
Proof.
  intros Hwf Hne [H0 H1].
  destruct (locate_split m 0 a (well_formed_heights m Hwf) Hne)
    as (pre & l & post & Hm & Hloc & [Hx0 Hx1] & Hs); [lra |].
  replace (a - 0 - ISAModel.height pre) with (a - ISAModel.height pre) in * by ring.
  set (x := a - ISAModel.height pre) in *.
  pose proof (well_formed_app_r pre (l :: post)) as Hwfl.
  rewrite <- Hm in Hwfl. specialize (Hwfl Hwf).
  destruct (well_formed_cons _ _ Hwfl) as (Hl & Hg & _ & _).
  exists pre, l, post. split; [assumption |]. split.
  { unfold ISAModel._get_layer_by_altitude. rewrite float_zero. exact Hloc. }
  split; [split; assumption |]. split; [assumption |]. split; [assumption |].
  pose proof (pressure_at_above_top l x Hl Hg (conj Hx0 Hx1)) as Habove.
  assert (Htops : Forall (fun l' => top_of l' (top_pressure l')) m)
    by apply well_formed_tops, Hwf.
  rewrite Hm in Htops. apply Forall_app in Htops as [Htpre Htl].
  rewrite Hm. apply by_pressure_first_intro.
  - pose proof (tops_above_base pre post l) as Hb. rewrite <- Hm in Hb.
    specialize (Hb Hwf).
    destruct (pressure_at_below_base l x Hl Hg Hx0) as [_ Hlt].
    destruct pre as [| l1 pre1] eqn:Epre; [constructor |].
    assert (Hpos : 0 < x) by (apply Hs; discriminate).
    specialize (Hlt Hpos).
    rewrite Forall_forall in *. intros l' Hin. exists (top_pressure l').
    split; [auto |]. specialize (Hb l' Hin). cbn in Hb. fold x. lra.
  - exists (top_pressure l). inversion Htl; subst. auto.
Qed.

(** X11: on a well-formed model, the pressure at an altitude in
    [[0, height]] lies between the top pressure of the top layer and the
    base pressure of the bottom layer. *)
Theorem model_pressure_range (m : ISAModel.t) (l0 lN : t) (rest : list t) (a : R) :
  well_formed m -> m = l0 :: rest -> ISAModel.last_layer m = Ok lN ->
  0 <= a <= ISAModel.height m ->
  exists p,
    ISAModel.get_pressure_by_altitude m a = Ok p /\
    top_pressure lN <= p <= base_press l0.
Proof.
  intros Hwf Hm0 Hlast Ha.
  assert (Hne : m <> []) by (subst m; discriminate).
  destruct (locate_agree m a Hwf Hne Ha)
    as (pre & l & post & Hm & Hloc & [Hx0 Hx1] & Hl & Hg & _).
  set (x := a - ISAModel.height pre) in *.
  exists (pressure_at l x). split.
  - unfold ISAModel.get_pressure_by_altitude. rewrite Hloc. cbn [bind].
    apply get_pressure_by_altitude_positive; [assumption | lra | assumption].
  - pose proof (pressure_at_above_top l x Hl Hg (conj Hx0 Hx1)) as Habove.
    destruct (pressure_at_below_base l x Hl Hg Hx0) as [Hbelow _].
    split.
    + destruct (last_layer_inv m lN Hlast) as [preN HmN].
      assert (Hin : In l (preN ++ [lN]))
        by (rewrite <- HmN, Hm; apply in_or_app; right; now left).
      rewrite HmN in Hwf. pose proof (tops_above_last preN lN Hwf l Hin). lra.
    + destruct pre as [| l1 pre1].
      * cbn [app] in Hm. rewrite Hm0 in Hm. inversion Hm; subst. assumption.
      * pose proof (tops_above_base (l1 :: pre1) post l) as Hb. rewrite <- Hm in Hb.
        specialize (Hb Hwf). apply Forall_inv in Hb.
        cbn [app] in Hm. rewrite Hm0 in Hm. injection Hm as -> _.
        rewrite Hm0 in Hwf.
        destruct (well_formed_cons _ _ Hwf) as (Hl1 & Hg1 & _ & _).
        pose proof (top_below_base l1 Hl1 Hg1). lra.
Qed.

End ModelInverse.

Section ModelInversePressure.

Import ISALayer.

Lemma standard_layers_height : ISAModel.height standard_layers = 84.852.
Proof. unfold ISAModel.height. cbn. lra. Qed.

Lemma model_pressure_range_witness :
  exists p,
    ISAModel.get_pressure_by_altitude standard_layers 30 = Ok p /\
    top_pressure mesosphere_upper <= p <= base_press troposphere.
Proof.
  apply (model_pressure_range standard_layers troposphere mesosphere_upper
           (tl standard_layers) 30).
  - apply standard_layers_well_formed.
  - reflexivity.
  - reflexivity.
  - rewrite standard_layers_height. lra.
Defined.

(** The first layer, from the bottom, whose top pressure is at most [p]. *)
Lemma first_match (m : list t) (p : R) :
  (exists l, In l m /\ top_pressure l <= p) ->
  exists pre l post,
    m = pre ++ l :: post /\
    Forall (fun l' => p < top_pressure l') pre /\
    top_pressure l <= p.
Proof.
  induction m as [| l m IH]; intros (l1 & Hin & Hle); [destruct Hin |].
  destruct (Rle_lt_dec (top_pressure l) p) as [Hhere | Hskip].
  - exists [], l, m. repeat split; [constructor | assumption].
  - destruct Hin as [-> | Hin]; [lra |].
    destruct IH as (pre & l' & post & -> & Hpre & Hl'); [exists l1; auto |].
    exists (l :: pre), l', post. repeat split; [constructor |]; assumption.
Qed.

(** In a well-formed stack a layer that is not the bottom one starts at
    the top pressure of a layer below it. *)
Lemma base_is_top_below (pre post : list t) (l : t) :
  well_formed (pre ++ l :: post) -> pre <> [] ->
  exists l', In l' pre /\ base_press l = top_pressure l'.
Proof.
  induction pre as [| l' pre IH]; intros Hwf Hne; [contradiction |].
  cbn [app] in Hwf. destruct (well_formed_cons _ _ Hwf) as (_ & _ & Hwf' & Hb).
  destruct pre as [| l'' pre]; cbn [app] in *.
  - exists l'. split; [now left | assumption].
  - destruct (IH Hwf') as (l1 & Hin & Heq); [discriminate |].
    exists l1. split; [now right | assumption].
Qed.

(** An altitude above the layers [pre] and at most one layer height
    further up falls into the layer that follows them. *)
Lemma locate_in (pre post : list t) (l : t) (acc a : R) :
  Forall (fun l' => 0 < height l') pre ->
  pre = [] \/ acc + ISAModel.height pre < a ->
  a <= acc + ISAModel.height pre + height l ->
  ISAModel.layer_by_altitude_from (pre ++ l :: post) acc a
  = Ok (l, a - acc - ISAModel.height pre).
Proof.
  intros Hh. revert acc. induction Hh as [| l' pre Hl' Hpre IH]; intros acc Hlow Hup;
    cbn [app].
  - unfold ISAModel.height in *. cbn [fold_left] in *.
    rewrite locate_here by lra. do 2 f_equal. ring.
  - destruct Hlow as [Hnil | Hlow]; [discriminate |].
    rewrite height_cons in *. pose proof (height_nonneg pre Hpre) as Hnn.
    rewrite locate_next by lra.
    rewrite IH; [do 2 f_equal; ring | right; lra | lra].
Qed.

(** X10: on a well-formed model, a pressure between the top pressure of
    the top layer and the base pressure of the bottom layer lies between
    the top and the base pressure of one layer, the one that
    [_get_layer_by_pressure] returns; the altitude query returns the
    closed-form altitude of the pressure within that layer plus the
    heights of the layers below it; that closed-form altitude is not
    negative, and, as real functions, the layer's pressure at it is the
    given pressure.  (Layers are objects: list entries with the same
    identity are the same layer.) *)
Theorem model_pressure_of_altitude (m : ISAModel.t) (l0 lN : t) (rest : list t) (p : R) :
  well_formed m -> one_state_per_object m ->
  m = l0 :: rest -> ISAModel.last_layer m = Ok lN ->
  top_pressure lN <= p <= base_press l0 ->
  exists pre l post,
    m = pre ++ l :: post /\
    top_pressure l <= p <= base_press l /\
    ISAModel._get_layer_by_pressure m p = Ok l /\
    ISAModel.get_altitude_by_pressure m p
    = Ok (altitude_at l p + ISAModel.height pre) /\
    0 <= altitude_at l p /\
    pressure_at l (altitude_at l p) = p.
Proof.
  intros Hwf Hobj Hm0 Hlast [Hp0 Hp1].
  destruct (last_layer_inv m lN Hlast) as [preN HmN].
  destruct (first_match m p) as (pre & l & post & Hm & Hskip & Hmatch).
  { exists lN. split; [| assumption]. rewrite HmN. apply in_or_app. right. now left. }
  pose proof (well_formed_app_r pre (l :: post)) as Hwfl.
  rewrite <- Hm in Hwfl. specialize (Hwfl Hwf).
  destruct (well_formed_cons _ _ Hwfl) as (Hl & Hg & Hwfpost & _).
  assert (Hle : p <= base_press l).
  { destruct pre as [| l1 pre1] eqn:Epre.
    - cbn [app] in Hm. rewrite Hm0 in Hm. injection Hm as -> _. assumption.
    - destruct (base_is_top_below (l1 :: pre1) post l) as (l' & Hin & Heq);
        [rewrite <- Hm; assumption | discriminate |].
      rewrite Forall_forall in Hskip. specialize (Hskip l' Hin). lra. }
  assert (Hppos : 0 < p).
  { pose proof (pressure_at_pos l (height l) (pos_press l Hl)) as H.
    unfold top_pressure in Hmatch. lra. }
  destruct (altitude_at_nonneg l p Hl Hg Hppos Hle) as [Hx0 _].
  assert (Htops : Forall (fun l' => top_of l' (top_pressure l')) m)
    by apply well_formed_tops, Hwf.
  assert (Hfound : ISAModel._get_layer_by_pressure m p = Ok l).
  { rewrite Hm. rewrite Hm in Htops. apply Forall_app in Htops as [Htpre Htl].
    apply by_pressure_first_intro.
    - rewrite Forall_forall in *. intros l' Hin. exists (top_pressure l'). auto.
    - exists (top_pressure l). inversion Htl; subst. auto. }
  assert (Hids : Forall (fun l' => oid l' <> oid l) pre).
  { rewrite Forall_forall in *. intros l' Hin Heq.
    assert (Hsame : l' = l).
    { apply Hobj; [| | assumption]; rewrite Hm; apply in_or_app;
        [left; assumption | right; now left]. }
    specialize (Hskip l' Hin). rewrite Hsame in Hskip. lra. }
  exists pre, l, post. split; [assumption |]. split; [split; assumption |].
  split; [assumption |]. split; [| split; [assumption |]].
  - unfold ISAModel.get_altitude_by_pressure. rewrite Hfound. cbn [bind].
    rewrite get_altitude_by_pressure_value by assumption. cbn [bind].
    rewrite Hm, add_heights_below_split by assumption. reflexivity.
  - apply pressure_at_altitude_at; [assumption | lra | assumption].
Qed.

Lemma model_pressure_of_altitude_witness :
  exists pre l post,
    standard_layers = pre ++ l :: post /\
    top_pressure l <= top_pressure troposphere <= base_press l /\
    ISAModel._get_layer_by_pressure standard_layers (top_pressure troposphere) = Ok l /\
    ISAModel.get_altitude_by_pressure standard_layers (top_pressure troposphere)
    = Ok (altitude_at l (top_pressure troposphere) + ISAModel.height pre) /\
    0 <= altitude_at l (top_pressure troposphere) /\
    pressure_at l (altitude_at l (top_pressure troposphere)) = top_pressure troposphere.
Proof.
  apply (model_pressure_of_altitude standard_layers troposphere mesosphere_upper
           (tl standard_layers) (top_pressure troposphere)).
  - apply standard_layers_well_formed.
  - apply standard_layers_objects.
  - reflexivity.
  - reflexivity.
  - split.
    + apply (tops_above_last (removelast standard_layers) mesosphere_upper
               standard_layers_well_formed troposphere).
      now left.
    + left. apply top_below_base; [apply troposphere_positive |].
      apply default_gas_const_pos.
Defined.

End ModelInversePressure.

Section PressureDomain.

Import ISALayer.

(** X12: on a well-formed model, [_get_layer_by_pressure] raises its
    [ValueError] exactly when the pressure is below the top pressure of the
    top layer; at every other pressure, also above the base pressure of
    the bottom layer, it returns a layer. *)
Theorem get_layer_by_pressure_domain (m : ISAModel.t) (lN : t) (p : R) :
  well_formed m -> ISAModel.last_layer m = Ok lN ->
  (ISAModel._get_layer_by_pressure m p
   = Raise (ValueError pressure_outside_of_atmosphere)
   <-> p < top_pressure lN) /\
  (top_pressure lN <= p -> exists l, In l m /\ ISAModel._get_layer_by_pressure m p = Ok l).
Proof.
  intros Hwf Hlast. destruct (last_layer_inv m lN Hlast) as [preN HmN].
  assert (Hret : top_pressure lN <= p ->
                 exists l, In l m /\ ISAModel._get_layer_by_pressure m p = Ok l).
  { intros Hle.
    destruct (first_match m p) as (pre & l & post & Hm & Hskip & Hmatch).
    { exists lN. split; [| assumption]. rewrite HmN. apply in_or_app. right. now left. }
    pose proof (well_formed_tops m Hwf) as Htops.
    rewrite Hm in Htops. apply Forall_app in Htops as [Htpre Htl].
    exists l. split; [rewrite Hm; apply in_or_app; right; now left |].
    rewrite Hm. apply by_pressure_first_intro.
    - rewrite Forall_forall in *. intros l' Hin. exists (top_pressure l'). auto.
    - exists (top_pressure l). inversion Htl; subst. auto. }
  split; [| exact Hret]. split.
  - intros Hraise. destruct (Rle_lt_dec (top_pressure lN) p) as [Hle | Hlt];
      [| assumption].
    destruct (Hret Hle) as (l & _ & Hok). rewrite Hok in Hraise. discriminate.
  - intros Hlt. destruct Hwf as [Hp Hg Hc].
    apply pressure_below_all_tops; try assumption.
    intros l Hin. rewrite HmN in *.
    pose proof (tops_above_last preN lN (WellFormed _ Hp Hg Hc) l Hin). lra.
Qed.

Lemma get_layer_by_pressure_domain_witness :
  exists l,
    In l standard_layers /\
    ISAModel._get_layer_by_pressure standard_layers 200000 = Ok l.
Proof.
  apply (get_layer_by_pressure_domain standard_layers mesosphere_upper 200000
           standard_layers_well_formed eq_refl).
  pose proof (tops_above_last (removelast standard_layers) mesosphere_upper
                standard_layers_well_formed troposphere (or_introl eq_refl)) as H.
  pose proof (top_below_base troposphere troposphere_positive default_gas_const_pos) as H'.
  cbn [base_press troposphere init] in H'. lra.
Defined.

End PressureDomain.

(** ** The closed forms and their inverses *)

Section ClosedForms.

Import ISALayer.

(** C1 (amended): on a layer with positive height, base and top
    temperature and base pressure and a non-zero gas constant, for every
    local altitude [a] in [[0, height]]: [get_pressure_by_altitude]
    returns the closed form [pressure_at], which is positive;
    [get_altitude_by_pressure], at that pressure, returns the closed form
    [altitude_at]; and [altitude_at] is the inverse of [pressure_at]: as
    real functions, the altitude of the pressure at [a] is [a].  Nothing
    is said of the rounding of the two calls. *)
Theorem layer_round_trip (l : t) (a : R) :
  positive l -> gas_const l <> 0 -> 0 <= a <= height l ->
  get_pressure_by_altitude l a = Ok (pressure_at l a) /\
  0 < pressure_at l a /\
  get_altitude_by_pressure l (pressure_at l a)
  = Ok (altitude_at l (pressure_at l a)) /\
  altitude_at l (pressure_at l a) = a.
Proof.
  intros Hl Hg [Ha _].
  pose proof (pressure_at_pos l a (pos_press l Hl)) as Hp.
  pose proof (frac_at_ge_1 l a Hl Ha) as Hf.
  split; [apply get_pressure_by_altitude_positive; assumption |].
  split; [assumption |].
  split; [apply get_altitude_by_pressure_value; assumption |].
  apply altitude_at_pressure_at; (assumption || lra).
Qed.

Lemma layer_round_trip_witness :
  get_pressure_by_altitude troposphere 5 = Ok (pressure_at troposphere 5) /\
  0 < pressure_at troposphere 5 /\
  get_altitude_by_pressure troposphere (pressure_at troposphere 5)
  = Ok (altitude_at troposphere (pressure_at troposphere 5)) /\
  altitude_at troposphere (pressure_at troposphere 5) = 5.
Proof.
  apply (layer_round_trip troposphere 5).
  - constructor; cbn; lra.
  - cbn; unfold default_gas_const; lra.
  - cbn; lra.
Defined.








End ClosedForms.
